(** * hola-proxy: the process entry point ([main.go])

    A shallow embedding of [parse_args], [arg_fail], [run] and [main] of
    [main.go].  The entry point is wiring: it parses the command line, builds
    the resolver, the credential service, the selected endpoint, the tunnel
    dialer and the proxy handler, and hands the handler to the HTTP server.
    Everything it calls outside [main.go] is kept abstract in the class
    [Collaborators]; what the program does is recorded as a list of [event]s
    next to its result, so that statements about "what was constructed, in what
    order, and with which exit status" are statements about that list. *)

From Stdlib Require Import String Ascii List ZArith NArith Bool Lia.
From Stdlib Require Import DecimalString.
Import ListNotations.

Local Open Scope string_scope.
Local Open Scope list_scope.
Local Open Scope Z_scope.

(** ** Go values *)

(** A Go [error] interface value: [None] is [nil]. *)
Definition error : Type := option string.

Definition is_nil (err : error) : bool :=
  match err with None => true | Some _ => false end.

(** The text [%v] prints for an error. *)
Definition error_text (err : error) : string :=
  match err with None => "<nil>" | Some msg => msg end.

(** [time.Duration]: a count of nanoseconds. *)
Definition Duration : Type := Z.
Definition Second : Duration := 1000000000.
Definition Hour : Duration := 3600 * Second.

(** [var version = "undefined"] *)
Definition version : string := "undefined".

(** ** [CLIArgs] *)

Record CLIArgs : Type := mkCLIArgs {
  country : string;
  list_countries : bool;
  list_proxies : bool;
  use_trial : bool;
  limit : N;
  bind_address : string;
  verbosity : Z;
  timeout : Duration;
  rotate : Duration;
  proxy_type : string;
  resolver : string;
  force_port_field : string;
  showVersion : bool
}.

(** [var args CLIArgs]: every field holds its zero value. *)
Definition zero_CLIArgs : CLIArgs :=
  mkCLIArgs "" false false false 0%N "" 0 0 0 "" "" "" false.

(** Stores through the field pointers [&args.f] handed to the [flag] package. *)
Definition set_country (v : string) (a : CLIArgs) : CLIArgs :=
  mkCLIArgs v (list_countries a) (list_proxies a) (use_trial a) (limit a)
    (bind_address a) (verbosity a) (timeout a) (rotate a) (proxy_type a)
    (resolver a) (force_port_field a) (showVersion a).
Definition set_list_countries (v : bool) (a : CLIArgs) : CLIArgs :=
  mkCLIArgs (country a) v (list_proxies a) (use_trial a) (limit a)
    (bind_address a) (verbosity a) (timeout a) (rotate a) (proxy_type a)
    (resolver a) (force_port_field a) (showVersion a).
Definition set_list_proxies (v : bool) (a : CLIArgs) : CLIArgs :=
  mkCLIArgs (country a) (list_countries a) v (use_trial a) (limit a)
    (bind_address a) (verbosity a) (timeout a) (rotate a) (proxy_type a)
    (resolver a) (force_port_field a) (showVersion a).
Definition set_use_trial (v : bool) (a : CLIArgs) : CLIArgs :=
  mkCLIArgs (country a) (list_countries a) (list_proxies a) v (limit a)
    (bind_address a) (verbosity a) (timeout a) (rotate a) (proxy_type a)
    (resolver a) (force_port_field a) (showVersion a).
Definition set_limit (v : N) (a : CLIArgs) : CLIArgs :=
  mkCLIArgs (country a) (list_countries a) (list_proxies a) (use_trial a) v
    (bind_address a) (verbosity a) (timeout a) (rotate a) (proxy_type a)
    (resolver a) (force_port_field a) (showVersion a).
Definition set_bind_address (v : string) (a : CLIArgs) : CLIArgs :=
  mkCLIArgs (country a) (list_countries a) (list_proxies a) (use_trial a)
    (limit a) v (verbosity a) (timeout a) (rotate a) (proxy_type a)
    (resolver a) (force_port_field a) (showVersion a).
Definition set_verbosity (v : Z) (a : CLIArgs) : CLIArgs :=
  mkCLIArgs (country a) (list_countries a) (list_proxies a) (use_trial a)
    (limit a) (bind_address a) v (timeout a) (rotate a) (proxy_type a)
    (resolver a) (force_port_field a) (showVersion a).
Definition set_timeout (v : Duration) (a : CLIArgs) : CLIArgs :=
  mkCLIArgs (country a) (list_countries a) (list_proxies a) (use_trial a)
    (limit a) (bind_address a) (verbosity a) v (rotate a) (proxy_type a)
    (resolver a) (force_port_field a) (showVersion a).
Definition set_rotate (v : Duration) (a : CLIArgs) : CLIArgs :=
  mkCLIArgs (country a) (list_countries a) (list_proxies a) (use_trial a)
    (limit a) (bind_address a) (verbosity a) (timeout a) v (proxy_type a)
    (resolver a) (force_port_field a) (showVersion a).
Definition set_proxy_type (v : string) (a : CLIArgs) : CLIArgs :=
  mkCLIArgs (country a) (list_countries a) (list_proxies a) (use_trial a)
    (limit a) (bind_address a) (verbosity a) (timeout a) (rotate a) v
    (resolver a) (force_port_field a) (showVersion a).
Definition set_resolver (v : string) (a : CLIArgs) : CLIArgs :=
  mkCLIArgs (country a) (list_countries a) (list_proxies a) (use_trial a)
    (limit a) (bind_address a) (verbosity a) (timeout a) (rotate a)
    (proxy_type a) v (force_port_field a) (showVersion a).
Definition set_force_port_field (v : string) (a : CLIArgs) : CLIArgs :=
  mkCLIArgs (country a) (list_countries a) (list_proxies a) (use_trial a)
    (limit a) (bind_address a) (verbosity a) (timeout a) (rotate a)
    (proxy_type a) (resolver a) v (showVersion a).
Definition set_showVersion (v : bool) (a : CLIArgs) : CLIArgs :=
  mkCLIArgs (country a) (list_countries a) (list_proxies a) (use_trial a)
    (limit a) (bind_address a) (verbosity a) (timeout a) (rotate a)
    (proxy_type a) (resolver a) (force_port_field a) v.

(** ** Loggers and the plain dialer *)

(** [NewCondLogger(log.New(logWriter, prefix, flags), verbosity)]. *)
Record CondLogger : Type := mkCondLogger {
  log_prefix : string;
  log_flags : Z;
  log_verbosity : Z
}.

Definition LstdFlags : Z := 3.
Definition Lshortfile : Z := 16.

Inductive log_level : Type := Info | Critical.

(** [&net.Dialer{Timeout: ..., KeepAlive: ...}] *)
Record NetDialer : Type := mkNetDialer {
  nd_Timeout : Duration;
  nd_KeepAlive : Duration
}.

(** ** The [flag] package, as far as [parse_args] uses it

    The command line is taken after Go's tokenisation: a sequence of
    assignments [(name, value)], in the order they appear.  A bare boolean flag
    such as [-version] is the assignment [(name, VBool true)].  A value is what
    Go's conversion of the text produced; the ranges of [uint], [int] and
    [time.Duration], outside which the [flag] package rejects the text, are not
    modelled. *)

Inductive flag_value : Type :=
| VString (s : string)
| VBool (b : bool)
| VUint (n : N)
| VInt (z : Z)
| VDuration (d : Duration).

(** The variable a flag is bound to: the pointer given to [flag.XxxVar]. *)
Inductive flag_var : Type :=
| StringPtr (store : string -> CLIArgs -> CLIArgs)
| BoolPtr (store : bool -> CLIArgs -> CLIArgs)
| UintPtr (store : N -> CLIArgs -> CLIArgs)
| IntPtr (store : Z -> CLIArgs -> CLIArgs)
| DurationPtr (store : Duration -> CLIArgs -> CLIArgs).

Record Flag : Type := mkFlag {
  flag_Name : string;
  flag_Usage : string;
  flag_Value : flag_var
}.

(** The flag set being built together with the variables it writes to. *)
Definition FlagState : Type := (list Flag * CLIArgs)%type.

(** [flag.XxxVar(p, name, value, usage)] stores the default through [p] and
    registers the flag. *)
Definition flag_StringVar (p : string -> CLIArgs -> CLIArgs)
    (name value usage : string) (st : FlagState) : FlagState :=
  (fst st ++ [mkFlag name usage (StringPtr p)], p value (snd st)).
Definition flag_BoolVar (p : bool -> CLIArgs -> CLIArgs)
    (name : string) (value : bool) (usage : string) (st : FlagState) : FlagState :=
  (fst st ++ [mkFlag name usage (BoolPtr p)], p value (snd st)).
Definition flag_UintVar (p : N -> CLIArgs -> CLIArgs)
    (name : string) (value : N) (usage : string) (st : FlagState) : FlagState :=
  (fst st ++ [mkFlag name usage (UintPtr p)], p value (snd st)).
Definition flag_IntVar (p : Z -> CLIArgs -> CLIArgs)
    (name : string) (value : Z) (usage : string) (st : FlagState) : FlagState :=
  (fst st ++ [mkFlag name usage (IntPtr p)], p value (snd st)).
Definition flag_DurationVar (p : Duration -> CLIArgs -> CLIArgs)
    (name : string) (value : Duration) (usage : string) (st : FlagState) : FlagState :=
  (fst st ++ [mkFlag name usage (DurationPtr p)], p value (snd st)).

(** [formal[name]] *)
Definition flag_Lookup (fs : list Flag) (name : string) : option Flag :=
  find (fun f => String.eqb (flag_Name f) name) fs.

(** [flag.Value.Set]: a value of the wrong kind is rejected. *)
Definition flag_Set (v : flag_var) (x : flag_value) (a : CLIArgs) : option CLIArgs :=
  match v, x with
  | StringPtr p, VString s => Some (p s a)
  | BoolPtr p, VBool b => Some (p b a)
  | UintPtr p, VUint n => Some (p n a)
  | IntPtr p, VInt z => Some (p z a)
  | DurationPtr p, VDuration d => Some (p d a)
  | _, _ => None
  end.

(** The assignments of a command line applied in order; [None] when the [flag]
    package itself rejects one (a name that is not registered, a value of the
    wrong kind). *)
Fixpoint flag_assign (fs : list Flag) (cmdline : list (string * flag_value))
    (a : CLIArgs) : option CLIArgs :=
  match cmdline with
  | [] => Some a
  | (name, x) :: rest =>
      match flag_Lookup fs name with
      | None => None
      | Some f =>
          match flag_Set (flag_Value f) x a with
          | None => None
          | Some a' => flag_assign fs rest a'
          end
      end
  end.

(** ** The collaborators of [main.go]

    Types and functions of the repository that [run] uses and that live in
    other files.  A function that returns [(T, error)] in Go returns a pair
    here; [run] only looks at the error. *)

Class Collaborators : Type := {
  Resolver : Type;
  AuthProvider : Type;
  Tunnels : Type;
  Endpoint : Type;
  ContextDialer : Type;
  Handler : Type;
  print_countries : Duration -> Z;
  print_proxies : string -> string -> N -> Duration -> Z;
  NewResolver : string -> Duration -> Resolver * error;
  CredService :
    Duration -> Duration -> string -> string -> CondLogger ->
    AuthProvider * Tunnels * error;
  get_endpoint : Tunnels -> string -> bool -> string -> Endpoint * error;
  NetAddr : Endpoint -> string;
  TLSName : Endpoint -> string;
  URL_String : Endpoint -> string;
  NewProxyDialer : string -> string -> AuthProvider -> NetDialer -> ContextDialer;
  NewProxyHandler : ContextDialer -> Resolver -> CondLogger -> Handler;
  (** [http.ListenAndServe]: [None] when the server never stops serving,
      [Some err] when the call returns [err]. *)
  ListenAndServe : string -> Handler -> option error
}.

(** How a computation ends: it returns a value, the process is terminated by
    [os.Exit], the [flag] package terminates the process on a command line it
    rejects (its exit status is the library's), or the computation never
    returns because the HTTP server keeps serving. *)
Inductive result (A : Type) : Type :=
| Returns (a : A)
| OsExit (code : Z)
| FlagExit
| Serving.

Arguments Returns {A} a.
Arguments OsExit {A} code.
Arguments FlagExit {A}.
Arguments Serving {A}.

Section Program.

Context {C : Collaborators}.

(** ** Observable actions *)

Inductive event : Type :=
| Stderr (line : string)
| Stdout (line : string)
| PrintDefaults (fs : list Flag)
| FlagError
| NewLogWriter
| LogWriterClose
| Log (l : CondLogger) (lvl : log_level) (format : string) (args : list string)
| Call_print_countries (t : Duration) (code : Z)
| Call_print_proxies (c p : string) (n : N) (t : Duration) (code : Z)
| Call_NewResolver (url : string) (t : Duration) (r : Resolver) (err : error)
| Call_CredService (rot t : Duration) (c p : string) (l : CondLogger)
    (auth : AuthProvider) (tunnels : Tunnels) (err : error)
| Call_get_endpoint (tunnels : Tunnels) (typ : string) (trial : bool)
    (force : string) (e : Endpoint) (err : error)
| Call_NewProxyDialer (address tlsServerName : string) (auth : AuthProvider)
    (next : NetDialer) (d : ContextDialer)
| Call_NewProxyHandler (d : ContextDialer) (r : Resolver) (l : CondLogger)
    (h : Handler)
| Call_ListenAndServe (addr : string) (h : Handler)
| Return_ListenAndServe (err : error).

(** A computation: the events it performs, in order, and how it ends. *)
Definition M (A : Type) : Type := (list event * result A)%type.

Definition ret {A : Type} (a : A) : M A := ([], Returns a).

Definition bind {A B : Type} (m : M A) (k : A -> M B) : M B :=
  match snd m with
  | Returns a => (fst m ++ fst (k a), snd (k a))
  | OsExit code => (fst m, OsExit code)
  | FlagExit => (fst m, FlagExit)
  | Serving => (fst m, Serving)
  end.

Definition emit (e : event) : M unit := ([e], Returns tt).

(** [os.Exit(code)] *)
Definition os_Exit {A : Type} (code : Z) : M A := ([], OsExit code).

(** [defer cleanup] around the rest of a function body: the deferred call runs
    when the body returns, not when the process exits or the body never
    returns. *)
Definition defer {A : Type} (cleanup : M unit) (body : M A) : M A :=
  match snd body with
  | Returns a => bind (fst body, Returns tt) (fun _ => bind cleanup (fun _ => ret a))
  | _ => body
  end.

Notation "x <- m ;; k" := (bind m (fun x => k))
  (at level 61, m at next level, right associativity).
Notation "m ;;; k" := (bind m (fun _ => k))
  (at level 61, right associativity).

(** ** [perror], [arg_fail] *)

Definition perror (msg : string) : M unit :=
  emit (Stderr "") ;;;
  emit (Stderr msg).

Definition arg_fail (fs : list Flag) (msg : string) : M unit :=
  perror msg ;;;
  perror "Usage:" ;;;
  emit (PrintDefaults fs) ;;;
  os_Exit 2.

(** ** [parse_args] *)

(** The thirteen [flag.XxxVar] calls, in the order of the source. *)
Definition register_flags (st : FlagState) : FlagState :=
  let st := flag_StringVar set_force_port_field "force-port-field" ""
              "force specific port field/num (example 24232 or lum)" st in
  let st := flag_StringVar set_country "country" "us"
              "desired proxy location" st in
  let st := flag_BoolVar set_list_countries "list-countries" false
              "list available countries and exit" st in
  let st := flag_BoolVar set_list_proxies "list-proxies" false
              "output proxy list and exit" st in
  let st := flag_UintVar set_limit "limit" 3%N
              "amount of proxies in retrieved list" st in
  let st := flag_StringVar set_bind_address "bind-address" "127.0.0.1:8080"
              "HTTP proxy listen address" st in
  let st := flag_IntVar set_verbosity "verbosity" 20
              ("logging verbosity " ++
               "(10 - debug, 20 - info, 30 - warning, 40 - error, 50 - critical)")%string st in
  let st := flag_DurationVar set_timeout "timeout" (10 * Second)
              "timeout for network operations" st in
  let st := flag_DurationVar set_rotate "rotate" (1 * Hour)
              "rotate user ID once per given period" st in
  let st := flag_StringVar set_proxy_type "proxy-type" "direct"
              "proxy type: direct or peer or lum or virt or pool" st in
  let st := flag_StringVar set_resolver "resolver"
              "https://cloudflare-dns.com/dns-query"
              ("DNS/DoH/DoT resolver to workaround Hola blocked hosts. " ++
               "See https://github.com/ameshkov/dnslookup/ for upstream DNS URL format.")%string st in
  let st := flag_BoolVar set_use_trial "dont-use-trial" false
              "use regular ports instead of trial ports" st in
  let st := flag_BoolVar set_showVersion "version" false
              "show program version and exit" st in
  st.

(** [flag.Parse()] *)
Definition flag_Parse (st : FlagState) (cmdline : list (string * flag_value))
    : M CLIArgs :=
  match flag_assign (fst st) cmdline (snd st) with
  | Some a => ret a
  | None => ([FlagError], FlagExit)
  end.

Definition parse_args (cmdline : list (string * flag_value)) : M CLIArgs :=
  let st := register_flags ([], zero_CLIArgs) in
  args <- flag_Parse st cmdline ;;
  (if String.eqb (country args) ""
   then arg_fail (fst st) "Country can't be empty string."
   else ret tt) ;;;
  (if String.eqb (proxy_type args) ""
   then arg_fail (fst st) "Proxy type can't be an empty string."
   else ret tt) ;;;
  (if list_countries args && list_proxies args
   then arg_fail (fst st) "list-countries and list-proxies flags are mutually exclusive"
   else ret tt) ;;;
  ret args.

(** ** [run] *)

Definition log_call (l : CondLogger) (lvl : log_level) (format : string)
    (args : list string) : M unit :=
  emit (Log l lvl format args).

Definition call_print_countries (t : Duration) : M Z :=
  let code := print_countries t in
  emit (Call_print_countries t code) ;;; ret code.

Definition call_print_proxies (c p : string) (n : N) (t : Duration) : M Z :=
  let code := print_proxies c p n t in
  emit (Call_print_proxies c p n t code) ;;; ret code.

Definition call_NewResolver (url : string) (t : Duration) : M (Resolver * error) :=
  let r := NewResolver url t in
  emit (Call_NewResolver url t (fst r) (snd r)) ;;; ret r.

Definition call_CredService (rot t : Duration) (c p : string) (l : CondLogger)
    : M (AuthProvider * Tunnels * error) :=
  let r := CredService rot t c p l in
  emit (Call_CredService rot t c p l (fst (fst r)) (snd (fst r)) (snd r)) ;;; ret r.

Definition call_get_endpoint (tunnels : Tunnels) (typ : string) (trial : bool)
    (force : string) : M (Endpoint * error) :=
  let r := get_endpoint tunnels typ trial force in
  emit (Call_get_endpoint tunnels typ trial force (fst r) (snd r)) ;;; ret r.

Definition call_NewProxyDialer (address tlsServerName : string)
    (auth : AuthProvider) (next : NetDialer) : M ContextDialer :=
  let d := NewProxyDialer address tlsServerName auth next in
  emit (Call_NewProxyDialer address tlsServerName auth next d) ;;; ret d.

Definition call_NewProxyHandler (d : ContextDialer) (r : Resolver)
    (l : CondLogger) : M Handler :=
  let h := NewProxyHandler d r l in
  emit (Call_NewProxyHandler d r l h) ;;; ret h.

Definition call_ListenAndServe (addr : string) (h : Handler) : M error :=
  emit (Call_ListenAndServe addr h) ;;;
  match ListenAndServe addr h with
  | None => ([], Serving)
  | Some err => emit (Return_ListenAndServe err) ;;; ret err
  end.

Definition run (cmdline : list (string * flag_value)) : M Z :=
  args <- parse_args cmdline ;;
  if showVersion args then
    emit (Stdout version) ;;;
    ret 0
  else if list_countries args then
    call_print_countries (timeout args)
  else if list_proxies args then
    call_print_proxies (country args) (proxy_type args) (limit args) (timeout args)
  else
    emit NewLogWriter ;;;
    defer (emit LogWriterClose) (
      let mainLogger :=
        mkCondLogger "MAIN    : " (Z.lor LstdFlags Lshortfile) (verbosity args) in
      let credLogger :=
        mkCondLogger "CRED    : " (Z.lor LstdFlags Lshortfile) (verbosity args) in
      let proxyLogger :=
        mkCondLogger "PROXY   : " (Z.lor LstdFlags Lshortfile) (verbosity args) in
      log_call mainLogger Info "hola-proxy client version %s is starting..." [version] ;;;
      log_call mainLogger Info "Constructing fallback DNS upstream..." [] ;;;
      r <- call_NewResolver (resolver args) (timeout args) ;;
      let '(resolver, err) := r in
      if negb (is_nil err) then
        log_call mainLogger Critical "Unable to instantiate DNS resolver: %v"
          [error_text err] ;;;
        ret 6
      else
      log_call mainLogger Info "Initializing configuration provider..." [] ;;;
      r <- call_CredService (rotate args) (timeout args) (country args)
             (proxy_type args) credLogger ;;
      let '(auth, tunnels, err) := r in
      if negb (is_nil err) then
        log_call mainLogger Critical "Unable to instantiate credential service: %v"
          [error_text err] ;;;
        emit LogWriterClose ;;;
        ret 4
      else
      r <- call_get_endpoint tunnels (proxy_type args) (use_trial args)
             (force_port_field args) ;;
      let '(endpoint, err) := r in
      if negb (is_nil err) then
        log_call mainLogger Critical "Unable to determine proxy endpoint: %v"
          [error_text err] ;;;
        emit LogWriterClose ;;;
        ret 5
      else
      dialer <- call_NewProxyDialer (NetAddr endpoint) (TLSName endpoint) auth
                  (mkNetDialer (30 * Second) (30 * Second)) ;;
      log_call mainLogger Info "Endpoint: %s" [URL_String endpoint] ;;;
      log_call mainLogger Info "Starting proxy server..." [] ;;;
      handler <- call_NewProxyHandler dialer resolver proxyLogger ;;
      log_call mainLogger Info "Init complete." [] ;;;
      err <- call_ListenAndServe (bind_address args) handler ;;
      log_call mainLogger Critical "Server terminated with a reason: %v"
        [error_text err] ;;;
      log_call mainLogger Info "Shutting down..." [] ;;;
      ret 0).

(** ** [main]: [os.Exit(run())] *)

Definition main (cmdline : list (string * flag_value)) : M unit :=
  code <- run cmdline ;;
  os_Exit code.

(** The events of a process started with [cmdline]. *)
Definition trace (cmdline : list (string * flag_value)) : list event :=
  fst (main cmdline).

(** The exit status of the process: [Some code] when the program chose it. *)
Definition exit_status (cmdline : list (string * flag_value)) : option Z :=
  match snd (main cmdline) with
  | OsExit code => Some code
  | _ => None
  end.

End Program.

(** ** Endpoint selection *)

Module Selector.

(** Modelled from the spec: the type of a discovered tunnel endpoint, which
    [main.go] only names ([Endpoint], returned by [get_endpoint]); the fields are
    those of the spec's data model. *)
Record TunnelEndpoint : Type := mkTunnelEndpoint {
  te_address : string;
  te_tls_name : string;
  te_class : string;
  te_trial : bool;
  te_port_field : N
}.

Definition digit_of (c : ascii) : option N :=
  let n := N_of_ascii c in
  if ((48 <=? n) && (n <=? 57))%N then Some (n - 48)%N else None.

Fixpoint decimal_from (acc : N) (s : string) : option N :=
  match s with
  | EmptyString => Some acc
  | String c rest =>
      match digit_of c with
      | Some d => decimal_from (10 * acc + d)%N rest
      | None => None
      end
  end.

(** A literal port number: a non-empty string of decimal digits. *)
Definition literal_port (s : string) : option N :=
  match s with
  | EmptyString => None
  | _ => decimal_from 0%N s
  end.

Section Policy.

(** The vendor's named port-field keys and the identifier each stands for. *)
Variable port_field_key : string -> option N.

(** Modelled from the spec: how a forced port field is read, which is part of
    the absent [get_endpoint]: "either as a literal port number or as a named
    port-field key". *)
Definition interpret_port_field (forced : string) : option N :=
  match literal_port forced with
  | Some n => Some n
  | None => port_field_key forced
  end.

Definition matches_forced (forced : string) (e : TunnelEndpoint) : bool :=
  match interpret_port_field forced with
  | Some id => N.eqb (te_port_field e) id
  | None => false
  end.

Definition matches_policy (proxyClass : string) (useTrialPorts : bool)
    (e : TunnelEndpoint) : bool :=
  String.eqb (te_class e) proxyClass && Bool.eqb (te_trial e) useTrialPorts.

(** Modelled from the spec: [get_endpoint], which [main.go] calls and which is
    defined in a file that is not part of the sources at hand.  Section 4.3:
    a non-empty forced port field selects the endpoint whose port-field
    identifier matches, or fails with "no such port field"; otherwise the first
    endpoint, in discovery order, of the requested class and trial flag is
    selected, or the call fails with "no matching endpoint". *)
Definition Select (endpointSet : list TunnelEndpoint) (proxyClass : string)
    (useTrialPorts : bool) (forcedPortField : string)
    : option TunnelEndpoint * error :=
  if negb (String.eqb forcedPortField "") then
    match find (matches_forced forcedPortField) endpointSet with
    | Some e => (Some e, None)
    | None => (None, Some "no such port field")
    end
  else
    match filter (matches_policy proxyClass useTrialPorts) endpointSet with
    | e :: _ => (Some e, None)
    | [] => (None, Some "no matching endpoint")
    end.

(** [e] is the first element of [l] with the property [P]. *)
Definition first_with (P : TunnelEndpoint -> Prop) (l : list TunnelEndpoint)
    (e : TunnelEndpoint) : Prop :=
  exists pre post,
    l = pre ++ e :: post /\ P e /\ Forall (fun x => ~ P x) pre.









End Policy.

End Selector.

(** ** A closed world to run the program in

    Concrete collaborators for worked examples: the resolver, the credential
    service and the server answer as a [Scenario] says, endpoint selection is
    [Selector.Select], and the two constructors record their arguments. *)

Module World.

Import Selector.

Record ResolverConfig : Type := mkResolverConfig {
  rc_upstream : string;
  rc_timeout : Duration
}.

(** The live credentials are reached through a handle. *)
Definition CredHandle : Type := nat.

Record ProxyDialer : Type := mkProxyDialer {
  pd_address : string;
  pd_tlsServerName : string;
  pd_auth : CredHandle;
  pd_next : NetDialer
}.

Record ProxyHandler : Type := mkProxyHandler {
  ph_dialer : ProxyDialer;
  ph_resolver : ResolverConfig;
  ph_logger : CondLogger
}.

Record Scenario : Type := mkScenario {
  sc_port_field_key : string -> option N;
  sc_resolver_err : error;
  sc_handle : CredHandle;
  sc_tunnels : list TunnelEndpoint;
  sc_discovery_err : error;
  sc_serve : option error
}.

Definition endpoint_address (e : option TunnelEndpoint) : string :=
  match e with Some t => te_address t | None => "" end.

Definition endpoint_tls_name (e : option TunnelEndpoint) : string :=
  match e with Some t => te_tls_name t | None => "" end.

Definition collaborators (s : Scenario) : Collaborators := {|
  Resolver := ResolverConfig;
  AuthProvider := CredHandle;
  Tunnels := list TunnelEndpoint;
  Endpoint := option TunnelEndpoint;
  ContextDialer := ProxyDialer;
  Handler := ProxyHandler;
  print_countries := fun _ => 0;
  print_proxies := fun _ _ _ _ => 0;
  NewResolver := fun url t => (mkResolverConfig url t, sc_resolver_err s);
  CredService := fun _ _ _ _ _ => (sc_handle s, sc_tunnels s, sc_discovery_err s);
  get_endpoint := Select (sc_port_field_key s);
  NetAddr := endpoint_address;
  TLSName := endpoint_tls_name;
  URL_String := endpoint_address;
  NewProxyDialer := mkProxyDialer;
  NewProxyHandler := mkProxyHandler;
  ListenAndServe := fun _ _ => sc_serve s
|}.

Definition vendor_keys : string -> option N :=
  fun k => if String.eqb k "lum" then Some 22225%N else None.

Definition us_direct : TunnelEndpoint :=
  mkTunnelEndpoint "192.0.2.10:22222" "zagent1.example.org" "direct" false 22222.
Definition us_direct_trial : TunnelEndpoint :=
  mkTunnelEndpoint "192.0.2.10:22224" "zagent1.example.org" "direct" true 22224.
Definition us_lum : TunnelEndpoint :=
  mkTunnelEndpoint "192.0.2.11:22225" "zagent2.example.org" "lum" false 22225.

Definition discovered : list TunnelEndpoint := [us_direct_trial; us_direct; us_lum].

(** Everything works and the server keeps serving. *)
Definition healthy : Scenario :=
  mkScenario vendor_keys None 7%nat discovered None None.

(** The control plane rejects the discovery request. *)
Definition forbidden : Scenario :=
  mkScenario vendor_keys None 7%nat [] (Some "bad http status: 403 Forbidden") None.

(** The resolver URL is not accepted. *)
Definition bad_resolver : Scenario :=
  mkScenario vendor_keys (Some "unsupported resolver URL") 7%nat discovered None None.

(** The bind address is already taken: the server call returns at once. *)
Definition port_in_use : Scenario :=
  mkScenario vendor_keys None 7%nat discovered None
    (Some (Some "listen tcp 127.0.0.1:8080: bind: address already in use")).

End World.

(** ** Vocabulary for the statements *)

(** The flag set and the defaults after the registrations of [parse_args]. *)
Definition registered_flags : list Flag := fst (register_flags ([], zero_CLIArgs)).
Definition default_args : CLIArgs := snd (register_flags ([], zero_CLIArgs)).

(** The flag variables after [flag.Parse()], when it accepts the command line. *)
Definition parsed (cmdline : list (string * flag_value)) : option CLIArgs :=
  flag_assign registered_flags cmdline default_args.

(** The value the command line gives to a flag: its last assignment. *)
Fixpoint flag_given (name : string) (cmdline : list (string * flag_value))
    : option flag_value :=
  match cmdline with
  | [] => None
  | (n, v) :: rest =>
      match flag_given name rest with
      | Some v' => Some v'
      | None => if String.eqb n name then Some v else None
      end
  end.

(** The message of the first check of [parse_args] that fails. *)
Definition validation_message (a : CLIArgs) : option string :=
  if String.eqb (country a) "" then
    Some "Country can't be empty string."
  else if String.eqb (proxy_type a) "" then
    Some "Proxy type can't be an empty string."
  else if list_countries a && list_proxies a then
    Some "list-countries and list-proxies flags are mutually exclusive"
  else None.

(** The three loggers of [run]. *)
Definition mainLogger (a : CLIArgs) : CondLogger :=
  mkCondLogger "MAIN    : " (Z.lor LstdFlags Lshortfile) (verbosity a).
Definition credLogger (a : CLIArgs) : CondLogger :=
  mkCondLogger "CRED    : " (Z.lor LstdFlags Lshortfile) (verbosity a).
Definition proxyLogger (a : CLIArgs) : CondLogger :=
  mkCondLogger "PROXY   : " (Z.lor LstdFlags Lshortfile) (verbosity a).

Definition plain_dialer : NetDialer := mkNetDialer (30 * Second) (30 * Second).

(** The variable a flag name is bound to by its [flag.XxxVar] call, read from
    a [CLIArgs] value; [None] for a name that no call registers. *)
Definition field_value (name : string) (a : CLIArgs) : option flag_value :=
  if String.eqb name "force-port-field" then Some (VString (force_port_field a))
  else if String.eqb name "country" then Some (VString (country a))
  else if String.eqb name "list-countries" then Some (VBool (list_countries a))
  else if String.eqb name "list-proxies" then Some (VBool (list_proxies a))
  else if String.eqb name "limit" then Some (VUint (limit a))
  else if String.eqb name "bind-address" then Some (VString (bind_address a))
  else if String.eqb name "verbosity" then Some (VInt (verbosity a))
  else if String.eqb name "timeout" then Some (VDuration (timeout a))
  else if String.eqb name "rotate" then Some (VDuration (rotate a))
  else if String.eqb name "proxy-type" then Some (VString (proxy_type a))
  else if String.eqb name "resolver" then Some (VString (resolver a))
  else if String.eqb name "dont-use-trial" then Some (VBool (use_trial a))
  else if String.eqb name "version" then Some (VBool (showVersion a))
  else None.

(** The categories of startup failure and the exit status of each. *)
Inductive failure : Type :=
| InvalidArguments
| ResolverConstruction
| Discovery
| EndpointSelection.

Definition failure_code (f : failure) : Z :=
  match f with
  | InvalidArguments => 2
  | ResolverConstruction => 6
  | Discovery => 4
  | EndpointSelection => 5
  end.

Section Observations.

Context {C : Collaborators}.

Definition constructs_dialer (e : event) : bool :=
  match e with Call_NewProxyDialer _ _ _ _ _ => true | _ => false end.

Definition constructs_handler (e : event) : bool :=
  match e with Call_NewProxyHandler _ _ _ _ => true | _ => false end.

Definition starts_server (e : event) : bool :=
  match e with Call_ListenAndServe _ _ => true | _ => false end.

Definition calls_CredService (e : event) : bool :=
  match e with Call_CredService _ _ _ _ _ _ _ _ => true | _ => false end.

Definition calls_get_endpoint (e : event) : bool :=
  match e with Call_get_endpoint _ _ _ _ _ _ => true | _ => false end.

(** Writing to the terminal: the only thing [arg_fail] and the version report do. *)
Definition terminal_output (e : event) : bool :=
  match e with
  | Stderr _ | Stdout _ | PrintDefaults _ => true
  | _ => false
  end.

(** How often an event of a kind occurs. *)
Definition occurrences (k : event -> bool) (t : list event) : nat :=
  length (filter k t).

(** No dialer, no handler, no server. *)
Definition nothing_built (t : list event) : Prop :=
  Forall (fun e => constructs_dialer e = false /\ constructs_handler e = false
                   /\ starts_server e = false) t.

(** What [arg_fail msg] writes. *)
Definition usage_events (msg : string) : list event :=
  [Stderr ""; Stderr msg; Stderr ""; Stderr "Usage:"; PrintDefaults registered_flags].

(** The events of [run] up to the call of [NewResolver]. *)
Definition opening (a : CLIArgs) : list event :=
  [NewLogWriter;
   Log (mainLogger a) Info "hola-proxy client version %s is starting..." [version];
   Log (mainLogger a) Info "Constructing fallback DNS upstream..." []].

(** The events from the resolver to the call of [CredService]. *)
Definition discovery (a : CLIArgs) (r : Resolver) (auth : AuthProvider)
    (tunnels : Tunnels) (err : error) : list event :=
  [Call_NewResolver (resolver a) (timeout a) r None;
   Log (mainLogger a) Info "Initializing configuration provider..." [];
   Call_CredService (rotate a) (timeout a) (country a) (proxy_type a)
     (credLogger a) auth tunnels err].

(** The events from the dialer to the start of the server. *)
Definition wiring (a : CLIArgs) (r : Resolver) (auth : AuthProvider)
    (ep : Endpoint) : list event :=
  let d := NewProxyDialer (NetAddr ep) (TLSName ep) auth plain_dialer in
  let h := NewProxyHandler d r (proxyLogger a) in
  [Call_NewProxyDialer (NetAddr ep) (TLSName ep) auth plain_dialer d;
   Log (mainLogger a) Info "Endpoint: %s" [URL_String ep];
   Log (mainLogger a) Info "Starting proxy server..." [];
   Call_NewProxyHandler d r (proxyLogger a) h;
   Log (mainLogger a) Info "Init complete." [];
   Call_ListenAndServe (bind_address a) h].

(** The flags ask for the proxy itself: validation passed and none of
    [-version], [-list-countries], [-list-proxies] is set. *)
Definition proxy_mode (a : CLIArgs) : Prop :=
  validation_message a = None /\ showVersion a = false
  /\ list_countries a = false /\ list_proxies a = false.

(** The paths through [run]: each constructor is one way the function can go,
    with the events it performs and the way it ends. *)
Inductive run_path (cmdline : list (string * flag_value)) : M Z -> Prop :=
| Path_flag_rejected :
    parsed cmdline = None ->
    run_path cmdline ([FlagError], FlagExit)
| Path_arg_fail a msg :
    parsed cmdline = Some a ->
    validation_message a = Some msg ->
    run_path cmdline (usage_events msg, OsExit 2)
| Path_version a :
    parsed cmdline = Some a ->
    validation_message a = None ->
    showVersion a = true ->
    run_path cmdline ([Stdout version], Returns 0)
| Path_list_countries a :
    parsed cmdline = Some a ->
    validation_message a = None ->
    showVersion a = false ->
    list_countries a = true ->
    run_path cmdline
      ([Call_print_countries (timeout a) (print_countries (timeout a))],
       Returns (print_countries (timeout a)))
| Path_list_proxies a :
    parsed cmdline = Some a ->
    validation_message a = None ->
    showVersion a = false ->
    list_countries a = false ->
    list_proxies a = true ->
    run_path cmdline
      ([Call_print_proxies (country a) (proxy_type a) (limit a) (timeout a)
          (print_proxies (country a) (proxy_type a) (limit a) (timeout a))],
       Returns (print_proxies (country a) (proxy_type a) (limit a) (timeout a)))
| Path_resolver_failed a r msg :
    parsed cmdline = Some a ->
    proxy_mode a ->
    NewResolver (resolver a) (timeout a) = (r, Some msg) ->
    run_path cmdline
      (opening a ++
       [Call_NewResolver (resolver a) (timeout a) r (Some msg);
        Log (mainLogger a) Critical "Unable to instantiate DNS resolver: %v" [msg];
        LogWriterClose],
       Returns 6)
| Path_discovery_failed a r auth tunnels msg :
    parsed cmdline = Some a ->
    proxy_mode a ->
    NewResolver (resolver a) (timeout a) = (r, None) ->
    CredService (rotate a) (timeout a) (country a) (proxy_type a) (credLogger a)
      = (auth, tunnels, Some msg) ->
    run_path cmdline
      (opening a ++ discovery a r auth tunnels (Some msg) ++
       [Log (mainLogger a) Critical "Unable to instantiate credential service: %v" [msg];
        LogWriterClose;
        LogWriterClose],
       Returns 4)
| Path_selection_failed a r auth tunnels ep msg :
    parsed cmdline = Some a ->
    proxy_mode a ->
    NewResolver (resolver a) (timeout a) = (r, None) ->
    CredService (rotate a) (timeout a) (country a) (proxy_type a) (credLogger a)
      = (auth, tunnels, None) ->
    get_endpoint tunnels (proxy_type a) (use_trial a) (force_port_field a)
      = (ep, Some msg) ->
    run_path cmdline
      (opening a ++ discovery a r auth tunnels None ++
       [Call_get_endpoint tunnels (proxy_type a) (use_trial a) (force_port_field a)
          ep (Some msg);
        Log (mainLogger a) Critical "Unable to determine proxy endpoint: %v" [msg];
        LogWriterClose;
        LogWriterClose],
       Returns 5)
| Path_server_returned a r auth tunnels ep err :
    parsed cmdline = Some a ->
    proxy_mode a ->
    NewResolver (resolver a) (timeout a) = (r, None) ->
    CredService (rotate a) (timeout a) (country a) (proxy_type a) (credLogger a)
      = (auth, tunnels, None) ->
    get_endpoint tunnels (proxy_type a) (use_trial a) (force_port_field a)
      = (ep, None) ->
    ListenAndServe (bind_address a)
      (NewProxyHandler (NewProxyDialer (NetAddr ep) (TLSName ep) auth plain_dialer)
         r (proxyLogger a)) = Some err ->
    run_path cmdline
      (opening a ++ discovery a r auth tunnels None ++
       Call_get_endpoint tunnels (proxy_type a) (use_trial a) (force_port_field a)
         ep None ::
       wiring a r auth ep ++
       [Return_ListenAndServe err;
        Log (mainLogger a) Critical "Server terminated with a reason: %v"
          [error_text err];
        Log (mainLogger a) Info "Shutting down..." [];
        LogWriterClose],
       Returns 0)
| Path_serving a r auth tunnels ep :
    parsed cmdline = Some a ->
    proxy_mode a ->
    NewResolver (resolver a) (timeout a) = (r, None) ->
    CredService (rotate a) (timeout a) (country a) (proxy_type a) (credLogger a)
      = (auth, tunnels, None) ->
    get_endpoint tunnels (proxy_type a) (use_trial a) (force_port_field a)
      = (ep, None) ->
    ListenAndServe (bind_address a)
      (NewProxyHandler (NewProxyDialer (NetAddr ep) (TLSName ep) auth plain_dialer)
         r (proxyLogger a)) = None ->
    run_path cmdline
      (opening a ++ discovery a r auth tunnels None ++
       Call_get_endpoint tunnels (proxy_type a) (use_trial a) (force_port_field a)
         ep None ::
       wiring a r auth ep,
       Serving).

(** A run fails at startup in category [f]. *)
Definition startup_failure (cmdline : list (string * flag_value)) (f : failure)
    : Prop :=
  match f with
  | InvalidArguments =>
      exists a msg, parsed cmdline = Some a /\ validation_message a = Some msg
  | ResolverConstruction =>
      exists url t r msg, In (Call_NewResolver url t r (Some msg)) (trace cmdline)
  | Discovery =>
      exists rot t c p l auth tunnels msg,
        In (Call_CredService rot t c p l auth tunnels (Some msg)) (trace cmdline)
  | EndpointSelection =>
      exists tunnels typ trial force ep msg,
        In (Call_get_endpoint tunnels typ trial force ep (Some msg)) (trace cmdline)
  end.

(** The claim C6 as it is worded: one call of [CredService], no endpoint
    selection before it, and every endpoint selection after it works on the
    endpoint set that call returned. *)
Definition single_discovery (cmdline : list (string * flag_value)) : Prop :=
  exists pre rot t c p l auth tunnels err post,
    trace cmdline = pre ++ Call_CredService rot t c p l auth tunnels err :: post /\
    occurrences calls_CredService (pre ++ post) = 0%nat /\
    occurrences calls_get_endpoint pre = 0%nat /\
    (forall tun typ trial force ep e,
        In (Call_get_endpoint tun typ trial force ep e) post -> tun = tunnels).

(** Whether a run gets as far as the credential service: the [flag] package
    accepts the command line, the arguments are valid and ask for the proxy
    itself, and the resolver is built. *)
Definition reaches_discovery (cmdline : list (string * flag_value)) : bool :=
  match parsed cmdline with
  | None => false
  | Some a =>
      match validation_message a with
      | Some _ => false
      | None =>
          negb (showVersion a) && negb (list_countries a)
          && negb (list_proxies a)
          && is_nil (snd (NewResolver (resolver a) (timeout a)))
      end
  end.

(** The events after the call of [http.ListenAndServe]. *)
Fixpoint after_server_start (t : list event) : list event :=
  match t with
  | [] => []
  | e :: t' => if starts_server e then t' else after_server_start t'
  end.

(** What a rotation inside the credential service can reach.  The rotation
    interval is handed to [CredService] and to nothing else; the endpoint set
    of that call is used by the one endpoint selection, the dialer is built
    once, on the endpoint selected from that set and on the credentials value
    of that call; and once the server is started nothing is discovered,
    selected or dialled anew.  So what changes behind the credentials value
    is all that can change for the proxy. *)
Definition only_credentials_stay_live (cmdline : list (string * flag_value))
    : Prop :=
  forall rot t c p l auth tunnels err,
    In (Call_CredService rot t c p l auth tunnels err) (trace cmdline) ->
    (exists a, parsed cmdline = Some a /\ rot = rotate a) /\
    (occurrences calls_get_endpoint (trace cmdline) <= 1)%nat /\
    (occurrences constructs_dialer (trace cmdline) <= 1)%nat /\
    (forall address tls au next d,
        In (Call_NewProxyDialer address tls au next d) (trace cmdline) ->
        au = auth /\
        exists typ trial force ep,
          In (Call_get_endpoint tunnels typ trial force ep None)
             (trace cmdline) /\
          address = NetAddr ep /\ tls = TLSName ep) /\
    Forall (fun e => calls_CredService e = false
                     /\ calls_get_endpoint e = false
                     /\ constructs_dialer e = false)
      (after_server_start (trace cmdline)).

Definition calls_NewResolver (e : event) : bool :=
  match e with Call_NewResolver _ _ _ _ => true | _ => false end.

Definition calls_print_countries (e : event) : bool :=
  match e with Call_print_countries _ _ => true | _ => false end.

Definition calls_print_proxies (e : event) : bool :=
  match e with Call_print_proxies _ _ _ _ _ => true | _ => false end.

Definition closes_log_writer (e : event) : bool :=
  match e with LogWriterClose => true | _ => false end.

Definition logs_critical (e : event) : bool :=
  match e with Log _ Critical _ _ => true | _ => false end.

(** Scans a trace for a [Log] call made before the log writer exists or after
    it was closed; [opened] and [closed] say what was seen so far. *)
Fixpoint logs_while_open (opened closed : bool) (t : list event) : bool :=
  match t with
  | [] => true
  | NewLogWriter :: t' => logs_while_open true closed t'
  | LogWriterClose :: t' => logs_while_open opened true t'
  | Log _ _ _ _ :: t' => opened && negb closed && logs_while_open opened closed t'
  | _ :: t' => logs_while_open opened closed t'
  end.

End Observations.

(** * Properties *)

Section Laws.

Context {C : Collaborators}.

Lemma bind_ret_l {A B : Type} (a : A) (k : A -> M B) : bind (ret a) k = k a.
Proof. unfold bind, ret; simpl. now destruct (k a). Qed.

Lemma parse_args_eq (cmdline : list (string * flag_value)) :
  parse_args cmdline =
  match parsed cmdline with
  | None => ([FlagError], FlagExit)
  | Some a =>
      match validation_message a with
      | Some msg => (usage_events msg, OsExit 2)
      | None => ([], Returns a)
      end
  end.
Proof.
  unfold parse_args, flag_Parse, parsed, validation_message, usage_events.
  fold registered_flags default_args.
  destruct (flag_assign registered_flags cmdline default_args) as [a|];
    [|reflexivity].
  rewrite bind_ret_l.
  destruct (String.eqb (country a) ""); [reflexivity|].
  destruct (String.eqb (proxy_type a) ""); [reflexivity|].
  destruct (list_countries a && list_proxies a); reflexivity.
Qed.

(** Push the computation of [run] one collaborator call further. *)
Ltac step_run :=
  cbn [bind emit ret defer log_call fst snd app negb is_nil error_text].

(** [run] follows exactly one of the paths of [run_path]. *)
Lemma run_follows_path (cmdline : list (string * flag_value)) :
  run_path cmdline (run cmdline).
Proof.
  unfold run. rewrite parse_args_eq.
  destruct (parsed cmdline) as [a|] eqn:Hp;
    [|exact (Path_flag_rejected cmdline Hp)].
  destruct (validation_message a) as [msg|] eqn:Hv;
    [exact (Path_arg_fail cmdline a msg Hp Hv)|].
  change (@pair (list event) (result CLIArgs) [] (Returns a)) with (ret a).
  rewrite bind_ret_l.
  destruct (showVersion a) eqn:Hs;
    [exact (Path_version cmdline a Hp Hv Hs)|].
  destruct (list_countries a) eqn:Hlc;
    [exact (Path_list_countries cmdline a Hp Hv Hs Hlc)|].
  destruct (list_proxies a) eqn:Hlp;
    [exact (Path_list_proxies cmdline a Hp Hv Hs Hlc Hlp)|].
  assert (Hm : proxy_mode a) by (repeat split; assumption).
  unfold call_NewResolver, call_CredService, call_get_endpoint,
    call_NewProxyDialer, call_NewProxyHandler, call_ListenAndServe.
  destruct (NewResolver (resolver a) (timeout a)) as [r [msg|]] eqn:Hr.
  { exact (Path_resolver_failed cmdline a r msg Hp Hm Hr). }
  step_run. fold (credLogger a).
  destruct (CredService (rotate a) (timeout a) (country a) (proxy_type a)
              (credLogger a)) as [[auth tunnels] [msg|]] eqn:Hc.
  { exact (Path_discovery_failed cmdline a r auth tunnels msg Hp Hm Hr Hc). }
  step_run.
  destruct (get_endpoint tunnels (proxy_type a) (use_trial a)
              (force_port_field a)) as [ep [msg|]] eqn:He.
  { exact (Path_selection_failed cmdline a r auth tunnels ep msg Hp Hm Hr Hc He). }
  step_run. fold plain_dialer. fold (proxyLogger a).
  destruct (ListenAndServe (bind_address a)
              (NewProxyHandler
                 (NewProxyDialer (NetAddr ep) (TLSName ep) auth plain_dialer)
                 r (proxyLogger a))) as [err|] eqn:Hl.
  - exact (Path_server_returned cmdline a r auth tunnels ep err Hp Hm Hr Hc He Hl).
  - exact (Path_serving cmdline a r auth tunnels ep Hp Hm Hr Hc He Hl).
Qed.

(** [main] performs the events of [run]; the process ends with the status
    [run] returned or [arg_fail] chose. *)
Lemma main_of_run (cmdline : list (string * flag_value)) :
  trace cmdline = fst (run cmdline) /\
  exit_status cmdline =
    match snd (run cmdline) with
    | Returns code => Some code
    | OsExit code => Some code
    | _ => None
    end.
Proof.
  unfold trace, exit_status, main, bind.
  destruct (snd (run cmdline)); simpl; auto using app_nil_r.
Qed.

(** Facts about the same command line talk about the same parsed flags. *)
Ltac same_parsed :=
  unfold proxy_mode in *;
  repeat match goal with
         | H : _ /\ _ |- _ => destruct H
         | H1 : parsed ?c = Some ?a, H2 : parsed ?c = Some ?b |- _ =>
             assert (a = b) by congruence; subst b; clear H2
         end;
  try congruence.

(** The path of a run is determined by the command line. *)
Lemma run_path_unique (cmdline : list (string * flag_value)) (m1 m2 : M Z) :
  run_path cmdline m1 -> run_path cmdline m2 -> m1 = m2.
Proof.
  intros P1 P2.
  inversion P1; inversion P2; subst; same_parsed;
    repeat match goal with
           | H1 : ?f = _, H2 : ?f = _ |- _ =>
               rewrite H1 in H2; inversion H2; subst; clear H2
           end;
    try reflexivity; try congruence.
Qed.

Lemma run_path_at (cmdline : list (string * flag_value)) (m : M Z) :
  run_path cmdline m -> run cmdline = m.
Proof.
  intros P. exact (run_path_unique cmdline _ _ (run_follows_path cmdline) P).
Qed.

End Laws.

(** ** The claims about [run] *)

Section Claims.

Context {C : Collaborators}.

(** Case analysis on the path [run] takes, with the trace and the exit status
    of the process rewritten to the ones of that path. *)
Ltac on_paths cmdline :=
  let P := fresh "P" in
  let Ht := fresh "Ht" in
  let Hx := fresh "Hx" in
  pose proof (run_follows_path cmdline) as P;
  destruct (main_of_run cmdline) as [Ht Hx];
  inversion P;
  match goal with E : _ = run cmdline |- _ => rewrite <- E in *; clear E end;
  cbn [fst snd] in Ht, Hx;
  rewrite ?Ht, ?Hx in *;
  unfold usage_events, opening, discovery, wiring in *;
  cbn [app] in *.

(** Split membership in an explicit list into its cases. *)
Ltac in_cases :=
  repeat match goal with
         | H : In _ (_ :: _) |- _ => destruct H as [H|H]
         | H : In _ [] |- _ => destruct H
         end;
  try discriminate.

(** C1: when [CredService] returns a non-nil error, [run] returns 4, the
    process exits with status 4, and no tunnel dialer or proxy handler is
    constructed and the HTTP server is not started. *)
Theorem discovery_failure_exits_4 (cmdline : list (string * flag_value))
    (rot t : Duration) (c p : string) (l : CondLogger) (auth : AuthProvider)
    (tunnels : Tunnels) (msg : string) :
  In (Call_CredService rot t c p l auth tunnels (Some msg)) (trace cmdline) ->
  snd (run cmdline) = Returns 4 /\
  exit_status cmdline = Some 4 /\
  nothing_built (trace cmdline).
Proof.
  intros H. on_paths cmdline; in_cases.
  repeat split; try reflexivity.
  unfold nothing_built. repeat constructor.
Qed.

Lemma validation_message_some (a : CLIArgs) :
  country a = "" \/ proxy_type a = "" \/
  (list_countries a = true /\ list_proxies a = true) ->
  exists msg, validation_message a = Some msg.
Proof.
  unfold validation_message.
  intros [H | [H | [H1 H2]]].
  - rewrite H. eexists; reflexivity.
  - rewrite H. destruct (String.eqb (country a) ""); eexists; reflexivity.
  - rewrite H1, H2.
    destruct (String.eqb (country a) ""), (String.eqb (proxy_type a) "");
      eexists; reflexivity.
Qed.

Lemma validation_message_none (a : CLIArgs) :
  country a <> "" -> proxy_type a <> "" ->
  list_countries a && list_proxies a = false ->
  validation_message a = None.
Proof.
  unfold validation_message. intros Hc Hp Hl.
  destruct (String.eqb_spec (country a) ""); [contradiction|].
  destruct (String.eqb_spec (proxy_type a) ""); [contradiction|].
  now rewrite Hl.
Qed.

(** Paths that disagree with what is known about the parsed flags. *)
Ltac wrong_path :=
  unfold proxy_mode in *;
  repeat match goal with
         | H : _ /\ _ |- _ => destruct H
         | H1 : parsed ?c = Some ?a, H2 : parsed ?c = Some ?b |- _ =>
             assert (a = b) by congruence; subst b; clear H2
         end;
  try congruence.

(** C2: each category of startup failure ends the process with its own
    status: 2 for invalid arguments, 6 for the resolver, 4 for discovery and 5
    for endpoint selection; none of them is 0 and no two are equal. *)
Theorem startup_failures_exit_distinctly (cmdline : list (string * flag_value))
    (f : failure) :
  startup_failure cmdline f ->
  exit_status cmdline = Some (failure_code f) /\
  failure_code f <> 0 /\
  (forall f', failure_code f' = failure_code f -> f' = f).
Proof.
  intros H.
  assert (Hcodes : failure_code f <> 0 /\
                   (forall f', failure_code f' = failure_code f -> f' = f)).
  { split; [destruct f; discriminate|].
    intros f'; destruct f, f'; simpl; intros E; try reflexivity; discriminate. }
  split; [|exact Hcodes]. clear Hcodes.
  destruct f; simpl in H.
  - destruct H as (a & msg & Ha & Hm).
    on_paths cmdline; wrong_path. reflexivity.
  - destruct H as (url & t & r & msg & H).
    on_paths cmdline; in_cases. reflexivity.
  - destruct H as (rot & t & c & p & l & auth & tunnels & msg & H).
    on_paths cmdline; in_cases. reflexivity.
  - destruct H as (tunnels & typ & trial & force & ep & msg & H).
    on_paths cmdline; in_cases. reflexivity.
Qed.

(** Whenever [http.ListenAndServe] returns, whatever the error, [run] returns 0
    and the process exits with status 0. *)
Lemma server_return_exits_0 (cmdline : list (string * flag_value)) (err : error) :
  In (Return_ListenAndServe err) (trace cmdline) ->
  snd (run cmdline) = Returns 0 /\ exit_status cmdline = Some 0.
Proof.
  intros H. on_paths cmdline; in_cases. split; reflexivity.
Qed.

(** A failed endpoint selection: [run] returns 5 and builds nothing. *)
Lemma selection_failure_exits_5 (cmdline : list (string * flag_value))
    (tunnels : Tunnels) (typ : string) (trial : bool) (force : string)
    (ep : Endpoint) (msg : string) :
  In (Call_get_endpoint tunnels typ trial force ep (Some msg)) (trace cmdline) ->
  snd (run cmdline) = Returns 5 /\
  exit_status cmdline = Some 5 /\
  nothing_built (trace cmdline).
Proof.
  intros H. on_paths cmdline; in_cases.
  repeat split; try reflexivity.
  unfold nothing_built. repeat constructor.
Qed.

(** C6, amended: a run that stops before discovery (the command line is
    rejected, the arguments are invalid, [-version] or a list flag is set, or
    the resolver cannot be built) calls neither [CredService] nor
    [get_endpoint]; every other run calls [CredService] exactly once, before
    any endpoint selection, and [get_endpoint] only ever receives the endpoint
    set of that call; nothing refreshes the endpoint list later, and of what
    the credential service keeps rotating only the credentials value reaches
    the proxy. *)
Theorem discovery_exactly_once (cmdline : list (string * flag_value)) :
  if reaches_discovery cmdline
  then single_discovery cmdline /\ only_credentials_stay_live cmdline
  else occurrences calls_CredService (trace cmdline) = 0%nat /\
       occurrences calls_get_endpoint (trace cmdline) = 0%nat.
Proof.
  unfold single_discovery, only_credentials_stay_live, reaches_discovery.
  on_paths cmdline;
    unfold proxy_mode in *;
    repeat match goal with
           | H : _ /\ _ |- _ => destruct H
           end;
    repeat match goal with
           | H : parsed cmdline = _ |- _ => rewrite H
           | H : validation_message _ = _ |- _ => rewrite H
           | H : showVersion _ = _ |- _ => rewrite H
           | H : list_countries _ = _ |- _ => rewrite H
           | H : list_proxies _ = _ |- _ => rewrite H
           | H : NewResolver _ _ = _ |- _ => rewrite H
           end;
    cbn [negb andb is_nil snd];
    try (split; reflexivity).
  - split.
    + exists (opening a ++ firstn 2 (discovery a r auth tunnels (Some msg))).
      do 9 eexists.
      split; [reflexivity|]. repeat split; try reflexivity.
      intros; in_cases.
    + intros rot t c p l au tun er Hin; in_cases.
      injection Hin as <- <- <- <- <- <- <- <-.
      split; [exists a; auto|].
      split; [cbn; auto|]. split; [cbn; auto|].
      split; [intros; in_cases | repeat constructor].
  - split.
    + exists (opening a ++ firstn 2 (discovery a r auth tunnels None)).
      do 9 eexists.
      split; [reflexivity|]. repeat split; try reflexivity.
      intros tun typ trial force ep0 e Hin; in_cases.
      now inversion Hin.
    + intros rot t c p l au tun er Hin; in_cases.
      injection Hin as <- <- <- <- <- <- <- <-.
      split; [exists a; auto|].
      split; [cbn; auto|]. split; [cbn; auto|].
      split; [intros; in_cases | repeat constructor].
  - split.
    + exists (opening a ++ firstn 2 (discovery a r auth tunnels None)).
      do 9 eexists.
      split; [reflexivity|]. repeat split; try reflexivity.
      intros tun typ trial force ep0 e Hin; in_cases.
      now inversion Hin.
    + intros rot t c p l au tun er Hin; in_cases.
      injection Hin as <- <- <- <- <- <- <- <-.
      split; [exists a; auto|].
      split; [cbn; auto|]. split; [cbn; auto|].
      split; [|repeat constructor].
      intros address tls au next d Hd; in_cases.
      injection Hd as <- <- <- <- <-.
      split; [reflexivity|]. exists (proxy_type a), (use_trial a),
        (force_port_field a), ep.
      split; [cbn; auto 10 | split; reflexivity].
  - split.
    + exists (opening a ++ firstn 2 (discovery a r auth tunnels None)).
      do 9 eexists.
      split; [reflexivity|]. repeat split; try reflexivity.
      intros tun typ trial force ep0 e Hin; in_cases.
      now inversion Hin.
    + intros rot t c p l au tun er Hin; in_cases.
      injection Hin as <- <- <- <- <- <- <- <-.
      split; [exists a; auto|].
      split; [cbn; auto|]. split; [cbn; auto|].
      split; [|repeat constructor].
      intros address tls au next d Hd; in_cases.
      injection Hd as <- <- <- <- <-.
      split; [reflexivity|]. exists (proxy_type a), (use_trial a),
        (force_port_field a), ep.
      split; [cbn; auto 10 | split; reflexivity].
Qed.

(** C7: when startup succeeds, that is when the HTTP server is started, the
    trace holds, in this order, the resolver, the one call of [CredService],
    the one endpoint selection, one dialer built from the selected endpoint's
    address and TLS name and from the very credentials handle [CredService]
    returned, one handler built over that dialer and that resolver, and then
    the start of the server with that handler. *)
Theorem successful_startup_wiring (cmdline : list (string * flag_value))
    (addr : string) (h : Handler) :
  In (Call_ListenAndServe addr h) (trace cmdline) ->
  exists s0 s1 s2 s3 s4 s5 s6 url rt r rot t c p l auth tunnels typ trial force ep lg,
    let d := NewProxyDialer (NetAddr ep) (TLSName ep) auth plain_dialer in
    trace cmdline =
      s0 ++ Call_NewResolver url rt r None ::
      s1 ++ Call_CredService rot t c p l auth tunnels None ::
      s2 ++ Call_get_endpoint tunnels typ trial force ep None ::
      s3 ++ Call_NewProxyDialer (NetAddr ep) (TLSName ep) auth plain_dialer d ::
      s4 ++ Call_NewProxyHandler d r lg h ::
      s5 ++ Call_ListenAndServe addr h :: s6 /\
    h = NewProxyHandler d r lg /\
    occurrences calls_CredService (trace cmdline) = 1%nat /\
    occurrences calls_get_endpoint (trace cmdline) = 1%nat /\
    occurrences constructs_dialer (trace cmdline) = 1%nat /\
    occurrences constructs_handler (trace cmdline) = 1%nat /\
    occurrences starts_server (trace cmdline) = 1%nat.
Proof.
  intros H. on_paths cmdline; in_cases.
  - inversion H; subst addr h.
    exists (opening a),
      [Log (mainLogger a) Info "Initializing configuration provider..." []],
      [], [],
      [Log (mainLogger a) Info "Endpoint: %s" [URL_String ep];
       Log (mainLogger a) Info "Starting proxy server..." []],
      [Log (mainLogger a) Info "Init complete." []].
    do 16 eexists.
    repeat split; reflexivity.
  - inversion H; subst addr h.
    exists (opening a),
      [Log (mainLogger a) Info "Initializing configuration provider..." []],
      [], [],
      [Log (mainLogger a) Info "Endpoint: %s" [URL_String ep];
       Log (mainLogger a) Info "Starting proxy server..." []],
      [Log (mainLogger a) Info "Init complete." []].
    do 16 eexists.
    repeat split; reflexivity.
Qed.

(** Which flag writes [use_trial]: an assignment to a registered flag either
    names [dont-use-trial] and stores its boolean there, or leaves the field
    alone. *)
Lemma registered_store (n : string) (f : Flag) (v : flag_value)
    (a0 a' : CLIArgs) :
  flag_Lookup registered_flags n = Some f ->
  flag_Set (flag_Value f) v a0 = Some a' ->
  if String.eqb n "dont-use-trial"
  then v = VBool (use_trial a')
  else use_trial a' = use_trial a0.
Proof.
  intros Hl Hs. unfold flag_Lookup, registered_flags in Hl.
  cbn -[String.eqb] in Hl.
  repeat match type of Hl with
         | context [String.eqb ?s n] =>
             destruct (String.eqb_spec s n) as [<-|?]
         end;
    try discriminate Hl;
    injection Hl as <-;
    destruct v; try discriminate Hs;
    injection Hs as <-; reflexivity.
Qed.

Lemma use_trial_parsed (cmdline : list (string * flag_value)) :
  forall a0 a,
    flag_assign registered_flags cmdline a0 = Some a ->
    match flag_given "dont-use-trial" cmdline with
    | Some v => v = VBool (use_trial a)
    | None => use_trial a = use_trial a0
    end.
Proof.
  induction cmdline as [|[n v] rest IH]; intros a0 a H;
    cbn [flag_assign] in H.
  - injection H as <-. reflexivity.
  - destruct (flag_Lookup registered_flags n) as [f|] eqn:Hl; [|discriminate].
    destruct (flag_Set (flag_Value f) v a0) as [a'|] eqn:Hs; [|discriminate].
    specialize (IH a' a H). cbn [flag_given].
    destruct (flag_given "dont-use-trial" rest) as [v'|]; [exact IH|].
    pose proof (registered_store n f v a0 a' Hl Hs) as Hr.
    destruct (String.eqb n "dont-use-trial"); congruence.
Qed.

(** C8: the trial-ports argument [get_endpoint] receives is the value of the
    flag named [dont-use-trial] (false when the flag is absent): it is stored
    in [use_trial] and passed on as it is. *)
Theorem dont_use_trial_is_trial_argument (cmdline : list (string * flag_value))
    (tunnels : Tunnels) (typ : string) (trial : bool) (force : string)
    (ep : Endpoint) (err : error) :
  In (Call_get_endpoint tunnels typ trial force ep err) (trace cmdline) ->
  exists a,
    parsed cmdline = Some a /\
    trial = use_trial a /\
    use_trial a =
      match flag_given "dont-use-trial" cmdline with
      | Some (VBool b) => b
      | _ => false
      end.
Proof.
  intros H.
  assert (Hg : forall a, parsed cmdline = Some a ->
                 use_trial a =
                   match flag_given "dont-use-trial" cmdline with
                   | Some (VBool b) => b
                   | _ => false
                   end).
  { intros a Ha. pose proof (use_trial_parsed cmdline default_args a Ha) as Hu.
    destruct (flag_given "dont-use-trial" cmdline) as [v|].
    - now subst v.
    - exact Hu. }
  on_paths cmdline; in_cases;
    inversion H; subst; exists a; auto.
Qed.

(** C9: an empty country, an empty proxy type, or both list flags together make
    [arg_fail] end the process with status 2; up to then the program has only
    written to the terminal. *)
Theorem invalid_arguments_exit_2 (cmdline : list (string * flag_value))
    (a : CLIArgs) :
  parsed cmdline = Some a ->
  country a = "" \/ proxy_type a = "" \/
  (list_countries a = true /\ list_proxies a = true) ->
  snd (run cmdline) = OsExit 2 /\
  exit_status cmdline = Some 2 /\
  Forall (fun e => terminal_output e = true) (trace cmdline).
Proof.
  intros Ha Hbad.
  destruct (validation_message_some a Hbad) as [msg Hm].
  on_paths cmdline; wrong_path.
  repeat split; try reflexivity. repeat constructor.
Qed.

(** C10, amended: when [-version] is set and the arguments pass validation,
    [run] writes the version and returns 0, and does nothing else, whatever the
    other flags are. *)
Theorem version_reported_when_valid (cmdline : list (string * flag_value))
    (a : CLIArgs) :
  parsed cmdline = Some a ->
  showVersion a = true ->
  country a <> "" ->
  proxy_type a <> "" ->
  list_countries a && list_proxies a = false ->
  run cmdline = ([Stdout version], Returns 0) /\
  trace cmdline = [Stdout version] /\
  exit_status cmdline = Some 0.
Proof.
  intros Ha Hs Hc Hp Hl.
  pose proof (validation_message_none a Hc Hp Hl) as Hm.
  on_paths cmdline; wrong_path.
  repeat split; reflexivity.
Qed.

End Claims.

(** ** The claims about endpoint selection *)

Section Selection.

Import Selector.

Variable port_field_key : string -> option N.

(** The first match of a test that decides a property. *)
Lemma find_first_with (p : TunnelEndpoint -> bool) (P : TunnelEndpoint -> Prop)
    (l : list TunnelEndpoint) :
  (forall x, p x = true <-> P x) ->
  match find p l with
  | Some e => first_with P l e
  | None => Forall (fun x => ~ P x) l
  end.
Proof.
  intros HP. induction l as [|x l IH]; simpl; [constructor|].
  destruct (p x) eqn:Hx.
  - exists [], l. split; [reflexivity|]. split; [now apply HP | constructor].
  - assert (Hn : ~ P x) by (intros HPx; apply HP in HPx; congruence).
    destruct (find p l) as [e|].
    + destruct IH as (pre & post & -> & He & Hpre).
      exists (x :: pre), post. split; [reflexivity|]. split; [assumption|].
      now constructor.
    + now constructor.
Qed.

(** The head of the filtered list is the first match. *)
Lemma filter_head (p : TunnelEndpoint -> bool) (l : list TunnelEndpoint) :
  match filter p l with e :: _ => Some e | [] => None end = find p l.
Proof.
  induction l as [|x l IH]; simpl; [reflexivity|].
  now destruct (p x).
Qed.

(** One digit more: the accumulator of [decimal_from] against the numerals of
    the standard library. *)
Lemma digit_step (c : ascii) (acc : N) (X : option Decimal.uint) :
  match digit_of c with
  | Some d =>
      option_map
        (fun u => match (10 * acc + d)%N with
                  | N0 => N.of_uint u
                  | Npos q => Npos (Pos.of_uint_acc u q)
                  end) X
  | None => None
  end =
  option_map
    (fun u => match acc with
              | N0 => N.of_uint u
              | Npos q => Npos (Pos.of_uint_acc u q)
              end)
    (uint_of_char c X).
Proof.
  destruct c as [[|] [|] [|] [|] [|] [|] [|] [|]];
    match goal with
    | |- context [digit_of ?c] =>
        let v := eval vm_compute in (digit_of c) in
        change (digit_of c) with v
    end;
    cbv beta iota;
    destruct X as [u|]; try reflexivity;
    destruct acc as [|q]; try reflexivity;
    cbn [uint_of_char option_map]; cbn [N.mul N.add]; unfold N.of_uint;
    cbn [Pos.of_uint_acc]; try reflexivity;
    f_equal; f_equal; f_equal; apply Pos.add_comm.
Qed.

(** [literal_port] reads a decimal numeral the way the standard library does. *)
Lemma decimal_from_spec (s : string) :
  forall acc,
    decimal_from acc s =
    option_map
      (fun u => match acc with
                | N0 => N.of_uint u
                | Npos q => Npos (Pos.of_uint_acc u q)
                end)
      (NilEmpty.uint_of_string s).
Proof.
  induction s as [|c s IH]; intros acc; [now destruct acc|].
  cbn [decimal_from NilEmpty.uint_of_string].
  rewrite <- digit_step.
  destruct (digit_of c); [apply IH | reflexivity].
Qed.

Lemma literal_port_spec (s : string) :
  s <> "" ->
  literal_port s = option_map N.of_uint (NilEmpty.uint_of_string s).
Proof.
  intros Hs. unfold literal_port.
  destruct s as [|c s]; [contradiction|]. apply decimal_from_spec.
Qed.

Lemma matches_forced_iff (forced : string) (id : N) (x : TunnelEndpoint) :
  interpret_port_field port_field_key forced = Some id ->
  matches_forced port_field_key forced x = true <-> te_port_field x = id.
Proof.
  intros H. unfold matches_forced. rewrite H. apply N.eqb_eq.
Qed.

Lemma matches_policy_iff (proxyClass : string) (useTrialPorts : bool)
    (x : TunnelEndpoint) :
  matches_policy proxyClass useTrialPorts x = true <->
  te_class x = proxyClass /\ te_trial x = useTrialPorts.
Proof.
  unfold matches_policy. rewrite andb_true_iff, String.eqb_eq.
  now rewrite Bool.eqb_true_iff.
Qed.

(** A forced port field that stands for the identifier [id]. *)
Lemma Select_forced (endpointSet : list TunnelEndpoint) (proxyClass : string)
    (useTrialPorts : bool) (forcedPortField : string) (id : N) :
  forcedPortField <> "" ->
  interpret_port_field port_field_key forcedPortField = Some id ->
  (exists e,
      Select port_field_key endpointSet proxyClass useTrialPorts forcedPortField
        = (Some e, None) /\
      first_with (fun x => te_port_field x = id) endpointSet e)
  \/
  (Select port_field_key endpointSet proxyClass useTrialPorts forcedPortField
     = (None, Some "no such port field") /\
   Forall (fun x => te_port_field x <> id) endpointSet).
Proof.
  intros Hne Hid. unfold Select.
  apply String.eqb_neq in Hne. rewrite Hne. cbn [negb].
  pose proof (find_first_with (matches_forced port_field_key forcedPortField)
                (fun x => te_port_field x = id) endpointSet
                (fun x => matches_forced_iff forcedPortField id x Hid)) as F.
  destruct (find (matches_forced port_field_key forcedPortField) endpointSet)
    as [e|].
  - left. exists e. split; [reflexivity | exact F].
  - right. split; [reflexivity | exact F].
Qed.

(** A forced port field that stands for no identifier. *)
Lemma Select_unknown_key (endpointSet : list TunnelEndpoint)
    (proxyClass : string) (useTrialPorts : bool) (forcedPortField : string) :
  forcedPortField <> "" ->
  interpret_port_field port_field_key forcedPortField = None ->
  Select port_field_key endpointSet proxyClass useTrialPorts forcedPortField
    = (None, Some "no such port field").
Proof.
  intros Hne Hid. unfold Select.
  apply String.eqb_neq in Hne. rewrite Hne. cbn [negb].
  assert (F : find (matches_forced port_field_key forcedPortField) endpointSet
              = None).
  { induction endpointSet as [|x l IH]; [reflexivity|]. simpl.
    unfold matches_forced at 1. now rewrite Hid. }
  now rewrite F.
Qed.

(** No forced port field: the class and the trial flag decide. *)
Lemma Select_policy (endpointSet : list TunnelEndpoint) (proxyClass : string)
    (useTrialPorts : bool) :
  (exists e,
      Select port_field_key endpointSet proxyClass useTrialPorts ""
        = (Some e, None) /\
      first_with (fun x => te_class x = proxyClass /\ te_trial x = useTrialPorts)
        endpointSet e)
  \/
  (Select port_field_key endpointSet proxyClass useTrialPorts ""
     = (None, Some "no matching endpoint") /\
   Forall (fun x => ~ (te_class x = proxyClass /\ te_trial x = useTrialPorts))
     endpointSet).
Proof.
  unfold Select. cbn [String.eqb negb].
  pose proof (filter_head (matches_policy proxyClass useTrialPorts) endpointSet)
    as E.
  pose proof (find_first_with (matches_policy proxyClass useTrialPorts)
                (fun x => te_class x = proxyClass /\ te_trial x = useTrialPorts)
                endpointSet (matches_policy_iff proxyClass useTrialPorts)) as F.
  destruct (filter (matches_policy proxyClass useTrialPorts) endpointSet)
    as [|e rest]; rewrite <- E in F.
  - right. split; [reflexivity | exact F].
  - left. exists e. split; [reflexivity | exact F].
Qed.




End Selection.

(** C5: endpoint selection fails closed.  A forced port field that reads as a
    decimal numeral selects the first endpoint whose port-field identifier is
    that number, one that is a named key selects the first endpoint whose
    identifier is the one the key stands for, and in both cases the outcome is
    the error "no such port field" when no endpoint has the identifier or the
    key is unknown.  Without a forced port field the first endpoint of the
    proxy class and trial flag is selected, and the outcome is the error
    "no matching endpoint" when the set holds none.  Whenever [get_endpoint]
    returns an error, [run] returns 5 and the process exits with status 5
    without a dialer, a handler or a server. *)
Theorem selection_fails_closed :
  (forall key endpointSet proxyClass useTrialPorts forcedPortField u,
      forcedPortField <> "" ->
      NilEmpty.uint_of_string forcedPortField = Some u ->
      (exists e,
          Selector.Select key endpointSet proxyClass useTrialPorts forcedPortField
            = (Some e, None) /\
          Selector.first_with
            (fun x => Selector.te_port_field x = N.of_uint u) endpointSet e)
      \/
      (Selector.Select key endpointSet proxyClass useTrialPorts forcedPortField
         = (None, Some "no such port field") /\
       Forall (fun x => Selector.te_port_field x <> N.of_uint u) endpointSet))
  /\
  (forall key endpointSet proxyClass useTrialPorts forcedPortField,
      forcedPortField <> "" ->
      NilEmpty.uint_of_string forcedPortField = None ->
      match key forcedPortField with
      | Some id =>
          (exists e,
              Selector.Select key endpointSet proxyClass useTrialPorts
                forcedPortField = (Some e, None) /\
              Selector.first_with (fun x => Selector.te_port_field x = id)
                endpointSet e)
          \/
          (Selector.Select key endpointSet proxyClass useTrialPorts
             forcedPortField = (None, Some "no such port field") /\
           Forall (fun x => Selector.te_port_field x <> id) endpointSet)
      | None =>
          Selector.Select key endpointSet proxyClass useTrialPorts
            forcedPortField = (None, Some "no such port field")
      end)
  /\
  (forall key endpointSet proxyClass useTrialPorts,
      (exists e,
          Selector.Select key endpointSet proxyClass useTrialPorts ""
            = (Some e, None) /\
          Selector.first_with
            (fun x => Selector.te_class x = proxyClass
                      /\ Selector.te_trial x = useTrialPorts)
            endpointSet e)
      \/
      (Selector.Select key endpointSet proxyClass useTrialPorts ""
         = (None, Some "no matching endpoint") /\
       Forall (fun x => ~ (Selector.te_class x = proxyClass
                           /\ Selector.te_trial x = useTrialPorts))
         endpointSet))
  /\
  (forall (C : Collaborators) cmdline tunnels typ trial force ep msg,
      In (Call_get_endpoint tunnels typ trial force ep (Some msg)) (trace cmdline) ->
      snd (run cmdline) = Returns 5 /\
      exit_status cmdline = Some 5 /\
      nothing_built (trace cmdline)).
Proof.
  split; [|split; [|split]].
  - intros key l cls trial forced u Hne Hu.
    apply Select_forced; [assumption|].
    unfold Selector.interpret_port_field.
    now rewrite (literal_port_spec forced Hne), Hu.
  - intros key l cls trial forced Hne Hu.
    assert (Hi : Selector.interpret_port_field key forced = key forced).
    { unfold Selector.interpret_port_field.
      now rewrite (literal_port_spec forced Hne), Hu. }
    destruct (key forced) as [id|] eqn:Hk.
    + now apply Select_forced.
    + now apply Select_unknown_key.
  - intros. apply Select_policy.
  - intros. eapply selection_failure_exits_5; eassumption.
Qed.

(** ** Worked runs *)

Section Runs.

Import Selector World.

(** The runs of the worked examples, each along its path. *)
Lemma bad_resolver_run :
  run (C := collaborators bad_resolver) [] =
    (opening default_args ++
     [Call_NewResolver (C := collaborators bad_resolver)
        (resolver default_args) (timeout default_args)
        (mkResolverConfig (resolver default_args) (timeout default_args))
        (Some "unsupported resolver URL");
      Log (mainLogger default_args) Critical
        "Unable to instantiate DNS resolver: %v" ["unsupported resolver URL"];
      LogWriterClose],
     Returns 6).
Proof.
  apply run_path_at.
  exact (Path_resolver_failed (C := collaborators bad_resolver) [] default_args
           _ _ eq_refl (conj eq_refl (conj eq_refl (conj eq_refl eq_refl)))
           eq_refl).
Qed.

Lemma forbidden_run :
  run (C := collaborators forbidden) [] =
    (opening default_args ++
     discovery (C := collaborators forbidden) default_args
       (mkResolverConfig (resolver default_args) (timeout default_args))
       7%nat [] (Some "bad http status: 403 Forbidden") ++
     [Log (mainLogger default_args) Critical
        "Unable to instantiate credential service: %v"
        ["bad http status: 403 Forbidden"];
      LogWriterClose;
      LogWriterClose],
     Returns 4).
Proof.
  apply run_path_at.
  exact (Path_discovery_failed (C := collaborators forbidden) [] default_args
           _ _ _ _ eq_refl (conj eq_refl (conj eq_refl (conj eq_refl eq_refl)))
           eq_refl eq_refl).
Qed.

Lemma port_in_use_run :
  run (C := collaborators port_in_use) [] =
    (opening default_args ++
     discovery (C := collaborators port_in_use) default_args
       (mkResolverConfig (resolver default_args) (timeout default_args))
       7%nat discovered None ++
     Call_get_endpoint (C := collaborators port_in_use) discovered
       (proxy_type default_args) (use_trial default_args)
       (force_port_field default_args) (Some us_direct) None ::
     wiring (C := collaborators port_in_use) default_args
       (mkResolverConfig (resolver default_args) (timeout default_args))
       7%nat (Some us_direct) ++
     [Return_ListenAndServe
        (Some "listen tcp 127.0.0.1:8080: bind: address already in use");
      Log (mainLogger default_args) Critical
        "Server terminated with a reason: %v"
        ["listen tcp 127.0.0.1:8080: bind: address already in use"];
      Log (mainLogger default_args) Info "Shutting down..." [];
      LogWriterClose],
     Returns 0).
Proof.
  apply run_path_at.
  exact (Path_server_returned (C := collaborators port_in_use) [] default_args
           _ _ _ _ _ eq_refl
           (conj eq_refl (conj eq_refl (conj eq_refl eq_refl)))
           eq_refl eq_refl eq_refl eq_refl).
Qed.

Lemma healthy_run :
  run (C := collaborators healthy) [] =
    (opening default_args ++
     discovery (C := collaborators healthy) default_args
       (mkResolverConfig (resolver default_args) (timeout default_args))
       7%nat discovered None ++
     Call_get_endpoint (C := collaborators healthy) discovered
       (proxy_type default_args) (use_trial default_args)
       (force_port_field default_args) (Some us_direct) None ::
     wiring (C := collaborators healthy) default_args
       (mkResolverConfig (resolver default_args) (timeout default_args))
       7%nat (Some us_direct),
     Serving).
Proof.
  apply run_path_at.
  exact (Path_serving (C := collaborators healthy) [] default_args
           _ _ _ _ eq_refl
           (conj eq_refl (conj eq_refl (conj eq_refl eq_refl)))
           eq_refl eq_refl eq_refl eq_refl).
Qed.

Lemma healthy_forced_port_run :
  let a := set_force_port_field "9" default_args in
  run (C := collaborators healthy) [("force-port-field", VString "9")] =
    (opening a ++
     discovery (C := collaborators healthy) a
       (mkResolverConfig (resolver a) (timeout a)) 7%nat discovered None ++
     [Call_get_endpoint (C := collaborators healthy) discovered (proxy_type a)
        (use_trial a) (force_port_field a) None (Some "no such port field");
      Log (mainLogger a) Critical "Unable to determine proxy endpoint: %v"
        ["no such port field"];
      LogWriterClose;
      LogWriterClose],
     Returns 5).
Proof.
  intros a. apply run_path_at.
  exact (Path_selection_failed (C := collaborators healthy)
           [("force-port-field", VString "9")] a _ _ _ _ _ eq_refl
           (conj eq_refl (conj eq_refl (conj eq_refl eq_refl)))
           eq_refl eq_refl eq_refl).
Qed.

Lemma healthy_trial_run :
  let a := set_use_trial true default_args in
  run (C := collaborators healthy) [("dont-use-trial", VBool true)] =
    (opening a ++
     discovery (C := collaborators healthy) a
       (mkResolverConfig (resolver a) (timeout a)) 7%nat discovered None ++
     Call_get_endpoint (C := collaborators healthy) discovered (proxy_type a)
       (use_trial a) (force_port_field a) (Some us_direct_trial) None ::
     wiring (C := collaborators healthy) a
       (mkResolverConfig (resolver a) (timeout a)) 7%nat (Some us_direct_trial),
     Serving).
Proof.
  intros a. apply run_path_at.
  exact (Path_serving (C := collaborators healthy)
           [("dont-use-trial", VBool true)] a _ _ _ _ eq_refl
           (conj eq_refl (conj eq_refl (conj eq_refl eq_refl)))
           eq_refl eq_refl eq_refl eq_refl).
Qed.

(** Membership in the trace of one of these runs. *)
Ltac occurs :=
  rewrite (proj1 (main_of_run _));
  first [ rewrite forbidden_run | rewrite bad_resolver_run
        | rewrite port_in_use_run | rewrite healthy_run
        | rewrite healthy_forced_port_run | rewrite healthy_trial_run ];
  unfold opening, discovery, wiring; cbn [fst app];
  repeat first [left; reflexivity | right].

(** The control plane answers 403: the process exits with 4 and builds
    nothing. *)
Lemma discovery_failure_exits_4_witness :
  In (Call_CredService (C := collaborators forbidden) (1 * Hour) (10 * Second)
        "us" "direct" (credLogger default_args) 7%nat []
        (Some "bad http status: 403 Forbidden"))
     (trace (C := collaborators forbidden) []) /\
  (snd (run (C := collaborators forbidden) []) = Returns 4 /\
   exit_status (C := collaborators forbidden) [] = Some 4 /\
   nothing_built (trace (C := collaborators forbidden) [])).
Proof.
  assert (H : In (Call_CredService (C := collaborators forbidden) (1 * Hour)
                    (10 * Second) "us" "direct" (credLogger default_args)
                    7%nat [] (Some "bad http status: 403 Forbidden"))
                 (trace (C := collaborators forbidden) [])) by occurs.
  split; [exact H|].
  exact (discovery_failure_exits_4 (C := collaborators forbidden) []
           (1 * Hour) (10 * Second) "us" "direct" (credLogger default_args)
           7%nat [] "bad http status: 403 Forbidden" H).
Defined.

(** A resolver that cannot be built: status 6. *)
Lemma startup_failures_exit_distinctly_witness :
  startup_failure (C := collaborators bad_resolver) [] ResolverConstruction /\
  (exit_status (C := collaborators bad_resolver) [] = Some 6 /\
   failure_code ResolverConstruction <> 0 /\
   (forall f', failure_code f' = failure_code ResolverConstruction ->
               f' = ResolverConstruction)).
Proof.
  assert (H : startup_failure (C := collaborators bad_resolver) []
                ResolverConstruction).
  { exists "https://cloudflare-dns.com/dns-query", (10 * Second),
      (mkResolverConfig "https://cloudflare-dns.com/dns-query" (10 * Second)),
      "unsupported resolver URL".
    occurs. }
  split; [exact H|].
  exact (startup_failures_exit_distinctly (C := collaborators bad_resolver) []
           ResolverConstruction H).
Defined.

(** C3: the bind address is taken, [http.ListenAndServe] returns the bind
    error at once, and the process still exits with status 0. *)
Theorem bind_failure_exits_0 :
  In (Return_ListenAndServe (C := collaborators port_in_use)
        (Some "listen tcp 127.0.0.1:8080: bind: address already in use"))
     (trace (C := collaborators port_in_use) []) /\
  snd (run (C := collaborators port_in_use) []) = Returns 0 /\
  exit_status (C := collaborators port_in_use) [] = Some 0.
Proof.
  split; [occurs | split; reflexivity].
Qed.


(** The four parts on the discovered set: the numeral 22225, the key [lum],
    the class [peer] that no endpoint has, and a run with a forced port field
    that no endpoint has. *)
Lemma selection_fails_closed_witness :
  let u := Decimal.D2 (Decimal.D2 (Decimal.D2 (Decimal.D2
             (Decimal.D5 Decimal.Nil)))) in
  ("22225" <> "" /\ NilEmpty.uint_of_string "22225" = Some u /\
   ((exists e,
        Select vendor_keys discovered "direct" false "22225" = (Some e, None) /\
        first_with (fun x => te_port_field x = N.of_uint u) discovered e)
    \/
    (Select vendor_keys discovered "direct" false "22225"
       = (None, Some "no such port field") /\
     Forall (fun x => te_port_field x <> N.of_uint u) discovered))) /\
  ("lum" <> "" /\ NilEmpty.uint_of_string "lum" = None /\
   match vendor_keys "lum" with
   | Some id =>
       (exists e,
           Select vendor_keys discovered "direct" false "lum" = (Some e, None) /\
           first_with (fun x => te_port_field x = id) discovered e)
       \/
       (Select vendor_keys discovered "direct" false "lum"
          = (None, Some "no such port field") /\
        Forall (fun x => te_port_field x <> id) discovered)
   | None =>
       Select vendor_keys discovered "direct" false "lum"
         = (None, Some "no such port field")
   end) /\
  ((exists e,
       Select vendor_keys discovered "peer" false "" = (Some e, None) /\
       first_with (fun x => te_class x = "peer" /\ te_trial x = false)
         discovered e)
   \/
   (Select vendor_keys discovered "peer" false ""
      = (None, Some "no matching endpoint") /\
    Forall (fun x => ~ (te_class x = "peer" /\ te_trial x = false))
      discovered)) /\
  (In (Call_get_endpoint (C := collaborators healthy) discovered "direct" false
         "9" None (Some "no such port field"))
      (trace (C := collaborators healthy) [("force-port-field", VString "9")]) /\
   (snd (run (C := collaborators healthy) [("force-port-field", VString "9")])
      = Returns 5 /\
    exit_status (C := collaborators healthy) [("force-port-field", VString "9")]
      = Some 5 /\
    nothing_built
      (trace (C := collaborators healthy) [("force-port-field", VString "9")]))).
Proof.
  intros u.
  assert (N1 : "22225" <> "") by discriminate.
  assert (N2 : "lum" <> "") by discriminate.
  assert (H : In (Call_get_endpoint (C := collaborators healthy) discovered
                    "direct" false "9" None (Some "no such port field"))
                 (trace (C := collaborators healthy)
                    [("force-port-field", VString "9")])) by occurs.
  destruct selection_fails_closed as (P1 & P2 & P3 & P4).
  split; [|split; [|split]].
  - split; [exact N1|]. split; [reflexivity|].
    exact (P1 vendor_keys discovered "direct" false "22225" u N1 eq_refl).
  - split; [exact N2|]. split; [reflexivity|].
    exact (P2 vendor_keys discovered "direct" false "lum" N2 eq_refl).
  - exact (P3 vendor_keys discovered "peer" false).
  - split; [exact H|].
    exact (P4 (collaborators healthy) [("force-port-field", VString "9")]
             discovered "direct" false "9" None "no such port field" H).
Defined.

(** The default run of the healthy world discovers once; the version report
    does not discover. *)
Lemma discovery_exactly_once_witness :
  (single_discovery (C := collaborators healthy) [] /\
   only_credentials_stay_live (C := collaborators healthy) []) /\
  (occurrences calls_CredService
     (trace (C := collaborators healthy) [("version", VBool true)]) = 0%nat /\
   occurrences calls_get_endpoint
     (trace (C := collaborators healthy) [("version", VBool true)]) = 0%nat).
Proof.
  pose proof (discovery_exactly_once (C := collaborators healthy) []) as R1.
  pose proof (discovery_exactly_once (C := collaborators healthy)
                [("version", VBool true)]) as R2.
  assert (E1 : reaches_discovery (C := collaborators healthy) [] = true)
    by reflexivity.
  assert (E2 : reaches_discovery (C := collaborators healthy)
                 [("version", VBool true)] = false)
    by reflexivity.
  rewrite E1 in R1. rewrite E2 in R2.
  exact (conj R1 R2).
Defined.

(** C6 as worded fails for [-version]: the process reports its version and
    never calls [CredService]. *)
Lemma version_run_has_no_discovery :
  ~ single_discovery (C := collaborators healthy) [("version", VBool true)].
Proof.
  intros (pre & rot & t & c & p & l & auth & tunnels & err & post & H & _).
  change (trace (C := collaborators healthy) [("version", VBool true)])
    with [Stdout (C := collaborators healthy) version] in H.
  destruct pre as [|x [|y pre]]; discriminate H.
Qed.

(** The default run of a healthy world: one dialer on the selected endpoint
    with the handle of the credential service, one handler over it. *)
Lemma successful_startup_wiring_witness :
  let d := mkProxyDialer "192.0.2.10:22222" "zagent1.example.org" 7%nat
             plain_dialer in
  let r := mkResolverConfig "https://cloudflare-dns.com/dns-query" (10 * Second) in
  let h := mkProxyHandler d r (proxyLogger default_args) in
  In (Call_ListenAndServe (C := collaborators healthy) "127.0.0.1:8080" h)
     (trace (C := collaborators healthy) []) /\
  occurrences constructs_dialer (trace (C := collaborators healthy) []) = 1%nat /\
  occurrences constructs_handler (trace (C := collaborators healthy) []) = 1%nat.
Proof.
  intros d r h.
  assert (H : In (Call_ListenAndServe (C := collaborators healthy)
                    "127.0.0.1:8080" h)
                 (trace (C := collaborators healthy) [])) by occurs.
  split; [exact H|].
  destruct (successful_startup_wiring (C := collaborators healthy) []
              "127.0.0.1:8080" h H)
    as (s0 & s1 & s2 & s3 & s4 & s5 & s6 & url & rt & r' & rot & t & c & p & l
        & auth & tunnels & typ & trial & force & ep & lg & W).
  destruct W as (_ & _ & _ & _ & Hd & Hh & _).
  split; [exact Hd | exact Hh].
Defined.

(** [-dont-use-trial] makes [get_endpoint] receive [true], and the selection
    then picks the trial endpoint. *)
Lemma dont_use_trial_is_trial_argument_witness :
  In (Call_get_endpoint (C := collaborators healthy) discovered "direct" true
        "" (Some us_direct_trial) None)
     (trace (C := collaborators healthy) [("dont-use-trial", VBool true)]) /\
  exists a,
    parsed [("dont-use-trial", VBool true)] = Some a /\
    true = use_trial a /\
    use_trial a =
      match flag_given "dont-use-trial" [("dont-use-trial", VBool true)] with
      | Some (VBool b) => b
      | _ => false
      end.
Proof.
  assert (H : In (Call_get_endpoint (C := collaborators healthy) discovered
                    "direct" true "" (Some us_direct_trial) None)
                 (trace (C := collaborators healthy)
                    [("dont-use-trial", VBool true)])) by occurs.
  split; [exact H|].
  exact (dont_use_trial_is_trial_argument (C := collaborators healthy)
           [("dont-use-trial", VBool true)] discovered "direct" true ""
           (Some us_direct_trial) None H).
Defined.

(** [-country ""] is rejected with status 2. *)
Lemma invalid_arguments_exit_2_witness :
  parsed [("country", VString "")] = Some (set_country "" default_args) /\
  (snd (run (C := collaborators healthy) [("country", VString "")]) = OsExit 2 /\
   exit_status (C := collaborators healthy) [("country", VString "")] = Some 2 /\
   Forall (fun e => terminal_output e = true)
     (trace (C := collaborators healthy) [("country", VString "")])).
Proof.
  split; [reflexivity|].
  apply (invalid_arguments_exit_2 (C := collaborators healthy)
           [("country", VString "")] (set_country "" default_args)).
  - reflexivity.
  - left. reflexivity.
Defined.

(** C10 as worded fails for [-version -country ""]: validation comes first,
    nothing is printed on standard output and the process exits with 2. *)
Lemma version_with_empty_country_exits_2 :
  exists a,
    parsed [("version", VBool true); ("country", VString "")] = Some a /\
    showVersion a = true /\
    run (C := collaborators healthy)
        [("version", VBool true); ("country", VString "")]
      <> ([Stdout version], Returns 0) /\
    exit_status (C := collaborators healthy)
        [("version", VBool true); ("country", VString "")] = Some 2.
Proof.
  eexists. split; [reflexivity|]. split; [reflexivity|].
  split; [|reflexivity].
  intros H. apply (f_equal snd) in H. discriminate H.
Qed.

(** [-version -list-countries]: the version wins. *)
Lemma version_reported_when_valid_witness :
  let cmdline := [("version", VBool true); ("list-countries", VBool true)] in
  parsed cmdline = Some (set_list_countries true (set_showVersion true default_args)) /\
  (run (C := collaborators healthy) cmdline = ([Stdout version], Returns 0) /\
   trace (C := collaborators healthy) cmdline = [Stdout version] /\
   exit_status (C := collaborators healthy) cmdline = Some 0).
Proof.
  intros cmdline. split; [reflexivity|].
  apply (version_reported_when_valid (C := collaborators healthy) cmdline
           (set_list_countries true (set_showVersion true default_args)));
    try reflexivity; discriminate.
Defined.

End Runs.

(** * More about [main.go] *)

(** ** The flag variables *)

Section Flags.

(** One assignment to a registered flag stores its value in the variable of
    that flag and leaves every other variable alone. *)
Lemma registered_store_all (n : string) (f : Flag) (v : flag_value)
    (a0 a' : CLIArgs) :
  flag_Lookup registered_flags n = Some f ->
  flag_Set (flag_Value f) v a0 = Some a' ->
  forall name,
    field_value name a' =
    if String.eqb n name then Some v else field_value name a0.
Proof.
  intros Hl Hs name. unfold flag_Lookup, registered_flags in Hl.
  cbn -[String.eqb] in Hl.
  repeat match type of Hl with
         | context [String.eqb ?s n] =>
             destruct (String.eqb_spec s n) as [<-|?]
         end;
    try discriminate Hl;
    injection Hl as <-;
    destruct v; try discriminate Hs;
    injection Hs as <-;
    unfold field_value;
    repeat match goal with
           | |- context [String.eqb name ?s] =>
               destruct (String.eqb_spec name s) as [->|?]
           end;
    try reflexivity;
    match goal with
    | |- context [String.eqb ?s name] =>
        destruct (String.eqb_spec s name); [congruence | reflexivity]
    end.
Qed.

Lemma field_value_assigned (cmdline : list (string * flag_value)) :
  forall a0 a,
    flag_assign registered_flags cmdline a0 = Some a ->
    forall name,
      field_value name a =
      match flag_given name cmdline with
      | Some v => Some v
      | None => field_value name a0
      end.
Proof.
  induction cmdline as [|[n v] rest IH]; intros a0 a H name;
    cbn [flag_assign] in H.
  - injection H as <-. reflexivity.
  - destruct (flag_Lookup registered_flags n) as [f|] eqn:Hl; [|discriminate].
    destruct (flag_Set (flag_Value f) v a0) as [a'|] eqn:Hs; [|discriminate].
    rewrite (IH a' a H name). cbn [flag_given].
    destruct (flag_given name rest) as [v'|]; [reflexivity|].
    rewrite (registered_store_all n f v a0 a' Hl Hs name).
    now destruct (String.eqb n name).
Qed.

(** Two argument records whose flag variables agree are the same record. *)
Lemma field_value_ext (a b : CLIArgs) :
  (forall name, field_value name a = field_value name b) -> a = b.
Proof.
  intros H.
  pose proof (H "force-port-field") as H1. pose proof (H "country") as H2.
  pose proof (H "list-countries") as H3. pose proof (H "list-proxies") as H4.
  pose proof (H "limit") as H5. pose proof (H "bind-address") as H6.
  pose proof (H "verbosity") as H7. pose proof (H "timeout") as H8.
  pose proof (H "rotate") as H9. pose proof (H "proxy-type") as H10.
  pose proof (H "resolver") as H11. pose proof (H "dont-use-trial") as H12.
  pose proof (H "version") as H13.
  destruct a, b. cbn in *. congruence.
Qed.

(** X1: after [flag.Parse] every flag variable holds the last value the
    command line assigns to its flag, or the default of its registration when
    the command line does not mention the flag. *)
Theorem flags_hold_last_assignment (cmdline : list (string * flag_value))
    (a : CLIArgs) :
  parsed cmdline = Some a ->
  forall name,
    field_value name a =
    match flag_given name cmdline with
    | Some v => Some v
    | None => field_value name default_args
    end.
Proof.
  intros H name. exact (field_value_assigned cmdline default_args a H name).
Qed.

(** X2: a flag that the command line does not mention keeps the default of
    its [flag.XxxVar] call. *)
Theorem absent_flags_keep_defaults (cmdline : list (string * flag_value))
    (a : CLIArgs) :
  parsed cmdline = Some a ->
  (flag_given "force-port-field" cmdline = None -> force_port_field a = "") /\
  (flag_given "country" cmdline = None -> country a = "us") /\
  (flag_given "list-countries" cmdline = None -> list_countries a = false) /\
  (flag_given "list-proxies" cmdline = None -> list_proxies a = false) /\
  (flag_given "limit" cmdline = None -> limit a = 3%N) /\
  (flag_given "bind-address" cmdline = None -> bind_address a = "127.0.0.1:8080") /\
  (flag_given "verbosity" cmdline = None -> verbosity a = 20) /\
  (flag_given "timeout" cmdline = None -> timeout a = 10 * Second) /\
  (flag_given "rotate" cmdline = None -> rotate a = Hour) /\
  (flag_given "proxy-type" cmdline = None -> proxy_type a = "direct") /\
  (flag_given "resolver" cmdline = None ->
   resolver a = "https://cloudflare-dns.com/dns-query") /\
  (flag_given "dont-use-trial" cmdline = None -> use_trial a = false) /\
  (flag_given "version" cmdline = None -> showVersion a = false).
Proof.
  intros H.
  pose proof (field_value_assigned cmdline default_args a H) as F.
  repeat split; intros G;
    match type of G with
    | flag_given ?name _ = None =>
        specialize (F name); rewrite G in F; cbn in F;
        injection F as F; rewrite F; reflexivity
    end.
Qed.

(** X3: the parsed flags depend on the command line only through the last
    assignment to each flag: two accepted command lines that agree on those
    (reordered flags, repeated flags) give the same arguments. *)
Theorem parsed_depends_on_last_assignments
    (cmdline1 cmdline2 : list (string * flag_value)) (a1 a2 : CLIArgs) :
  parsed cmdline1 = Some a1 ->
  parsed cmdline2 = Some a2 ->
  (forall name, flag_given name cmdline1 = flag_given name cmdline2) ->
  a1 = a2.
Proof.
  intros H1 H2 G. apply field_value_ext. intros name.
  rewrite (field_value_assigned cmdline1 default_args a1 H1 name).
  rewrite (field_value_assigned cmdline2 default_args a2 H2 name).
  now rewrite G.
Qed.

End Flags.

(** ** [parse_args] and [run] *)

Section More.

Context {C : Collaborators}.

Ltac follow cmdline :=
  let P := fresh "P" in
  let Ht := fresh "Ht" in
  let Hx := fresh "Hx" in
  pose proof (run_follows_path cmdline) as P;
  destruct (main_of_run cmdline) as [Ht Hx];
  inversion P;
  match goal with E : _ = run cmdline |- _ => rewrite <- E in *; clear E end;
  cbn [fst snd] in Ht, Hx;
  rewrite ?Ht, ?Hx in *;
  unfold usage_events, opening, discovery, wiring in *;
  cbn [app] in *.

Ltac members :=
  repeat match goal with
         | H : In _ (_ :: _) |- _ => destruct H as [H|H]
         | H : In _ [] |- _ => destruct H
         end;
  try discriminate.

Ltac same_flags :=
  unfold proxy_mode in *;
  repeat match goal with
         | H : _ /\ _ |- _ => destruct H
         | H1 : parsed ?c = Some ?a, H2 : parsed ?c = Some ?b |- _ =>
             assert (a = b) by congruence; subst b; clear H2
         end;
  try congruence.

Lemma validation_message_none_inv (a : CLIArgs) :
  validation_message a = None ->
  country a <> "" /\ proxy_type a <> "" /\
  (list_countries a = false \/ list_proxies a = false).
Proof.
  unfold validation_message.
  destruct (String.eqb_spec (country a) ""); [discriminate|].
  destruct (String.eqb_spec (proxy_type a) ""); [discriminate|].
  destruct (list_countries a), (list_proxies a); simpl;
    try discriminate; auto.
Qed.

(** X4: when [parse_args] returns, it has written nothing, and the arguments
    it returns have a non-empty country, a non-empty proxy type and at most one
    of the two list flags. *)
Theorem parse_args_returns_valid (cmdline : list (string * flag_value))
    (t : list event) (a : CLIArgs) :
  parse_args cmdline = (t, Returns a) ->
  t = [] /\ parsed cmdline = Some a /\
  country a <> "" /\ proxy_type a <> "" /\
  (list_countries a = false \/ list_proxies a = false).
Proof.
  rewrite parse_args_eq.
  destruct (parsed cmdline) as [a'|]; [|discriminate].
  destruct (validation_message a') as [msg|] eqn:Hv; [discriminate|].
  intros [= <- <-].
  split; [reflexivity|]. split; [reflexivity|].
  now apply validation_message_none_inv.
Qed.

(** X5: only the first check that fails is reported: an empty country is
    reported whatever else is wrong, an empty proxy type only when the country
    is given, the two list flags only when both are given; the process writes
    that one message and the usage, and exits with 2. *)
Theorem first_failed_check_reported (cmdline : list (string * flag_value))
    (a : CLIArgs) :
  parsed cmdline = Some a ->
  (country a = "" ->
   run cmdline = (usage_events "Country can't be empty string.", OsExit 2)) /\
  (country a <> "" -> proxy_type a = "" ->
   run cmdline = (usage_events "Proxy type can't be an empty string.", OsExit 2)) /\
  (country a <> "" -> proxy_type a <> "" ->
   list_countries a = true -> list_proxies a = true ->
   run cmdline =
     (usage_events "list-countries and list-proxies flags are mutually exclusive",
      OsExit 2)).
Proof.
  intros Ha.
  assert (R : forall msg, validation_message a = Some msg ->
                run cmdline = (usage_events msg, OsExit 2)).
  { intros msg Hm. unfold run. rewrite parse_args_eq, Ha, Hm. reflexivity. }
  repeat split.
  - intros Hc. apply R. unfold validation_message. now rewrite Hc.
  - intros Hc Hp. apply R. unfold validation_message. rewrite Hp.
    now destruct (String.eqb_spec (country a) "").
  - intros Hc Hp Hl1 Hl2. apply R. unfold validation_message.
    rewrite Hl1, Hl2.
    destruct (String.eqb_spec (country a) ""); [contradiction|].
    now destruct (String.eqb_spec (proxy_type a) "").
Qed.

(** X6: with [-list-countries] (and without [-version]) the only thing [run]
    does is call [print_countries] with the timeout; its result is the exit
    status of the process. *)
Theorem list_countries_mode (cmdline : list (string * flag_value)) (a : CLIArgs) :
  parsed cmdline = Some a ->
  country a <> "" -> proxy_type a <> "" ->
  showVersion a = false ->
  list_countries a = true ->
  list_proxies a = false ->
  trace cmdline =
    [Call_print_countries (timeout a) (print_countries (timeout a))] /\
  snd (run cmdline) = Returns (print_countries (timeout a)) /\
  exit_status cmdline = Some (print_countries (timeout a)).
Proof.
  intros Ha Hc Hp Hs Hlc Hlp.
  assert (Hm : validation_message a = None).
  { apply validation_message_none; try assumption. now rewrite Hlp, andb_false_r. }
  follow cmdline; same_flags.
  repeat split; reflexivity.
Qed.

(** X7: with [-list-proxies] (and without [-version] and [-list-countries])
    the only thing [run] does is call [print_proxies] with the country, the
    proxy type, the limit and the timeout; its result is the exit status. *)
Theorem list_proxies_mode (cmdline : list (string * flag_value)) (a : CLIArgs) :
  parsed cmdline = Some a ->
  country a <> "" -> proxy_type a <> "" ->
  showVersion a = false ->
  list_countries a = false ->
  list_proxies a = true ->
  let code := print_proxies (country a) (proxy_type a) (limit a) (timeout a) in
  trace cmdline =
    [Call_print_proxies (country a) (proxy_type a) (limit a) (timeout a) code] /\
  snd (run cmdline) = Returns code /\
  exit_status cmdline = Some code.
Proof.
  intros Ha Hc Hp Hs Hlc Hlp code.
  assert (Hm : validation_message a = None).
  { apply validation_message_none; try assumption. now rewrite Hlc. }
  follow cmdline; same_flags.
  repeat split; reflexivity.
Qed.

(** X8: when [NewResolver] fails, [run] returns 6 without calling
    [CredService] or [get_endpoint] and without building a dialer, a handler
    or a server. *)
Theorem resolver_failure_stops_before_discovery
    (cmdline : list (string * flag_value)) (url : string) (t : Duration)
    (r : Resolver) (msg : string) :
  In (Call_NewResolver url t r (Some msg)) (trace cmdline) ->
  snd (run cmdline) = Returns 6 /\
  occurrences calls_CredService (trace cmdline) = 0%nat /\
  occurrences calls_get_endpoint (trace cmdline) = 0%nat /\
  nothing_built (trace cmdline).
Proof.
  intros H. follow cmdline; members.
  repeat split; try reflexivity.
  unfold nothing_built. repeat constructor.
Qed.

(** X9: [CredService] is only ever called with the values of the flags
    [rotate], [timeout], [country] and [proxy-type] and the CRED logger, the
    country and the proxy type are never empty, and the resolver was built
    before, from the [resolver] flag and the same timeout. *)
Theorem CredService_arguments (cmdline : list (string * flag_value))
    (rot t : Duration) (c p : string) (l : CondLogger) (auth : AuthProvider)
    (tunnels : Tunnels) (err : error) :
  In (Call_CredService rot t c p l auth tunnels err) (trace cmdline) ->
  exists a r pre post,
    parsed cmdline = Some a /\
    rot = rotate a /\ t = timeout a /\ c = country a /\ p = proxy_type a /\
    l = credLogger a /\
    c <> "" /\ p <> "" /\
    (auth, tunnels, err) = CredService rot t c p l /\
    trace cmdline =
      pre ++ Call_NewResolver (resolver a) t r None :: post /\
    In (Call_CredService rot t c p l auth tunnels err) post.
Proof.
  intros H. follow cmdline; members;
    injection H as <- <- <- <- <- <- <- <-;
    match goal with Hm : proxy_mode ?a |- _ =>
      destruct Hm as (Hv & _);
      destruct (validation_message_none_inv a Hv) as (Hc & Hp & _);
      exists a, r, [NewLogWriter;
        Log (mainLogger a) Info "hola-proxy client version %s is starting..."
          [version];
        Log (mainLogger a) Info "Constructing fallback DNS upstream..." []]
    end;
    eexists; repeat split; try eassumption; try reflexivity;
    try (symmetry; eassumption);
    cbn; auto.
Qed.

(** X10: [get_endpoint] is only ever called with the proxy type that was given
    to [CredService], with the endpoint set that call returned without error,
    and with the value of the flag [force-port-field]. *)
Theorem get_endpoint_arguments (cmdline : list (string * flag_value))
    (tunnels : Tunnels) (typ : string) (trial : bool) (force : string)
    (ep : Endpoint) (err : error) :
  In (Call_get_endpoint tunnels typ trial force ep err) (trace cmdline) ->
  exists a rot t c l auth,
    parsed cmdline = Some a /\
    typ = proxy_type a /\ force = force_port_field a /\
    (ep, err) = get_endpoint tunnels typ trial force /\
    In (Call_CredService rot t c typ l auth tunnels None) (trace cmdline).
Proof.
  intros H. follow cmdline; members;
    injection H as <- <- <- <- <- <-;
    exists a; do 5 eexists;
    (repeat split; try eassumption; try reflexivity;
     try (symmetry; eassumption));
    cbn; auto 10.
Qed.

(** X11: the exit status the program chooses is 0, 2, 4, 5 or 6, or, in a
    list mode, what [print_countries] or [print_proxies] returned. *)
Theorem exit_status_range (cmdline : list (string * flag_value)) (code : Z) :
  exit_status cmdline = Some code ->
  code = 0 \/ code = 2 \/ code = 4 \/ code = 5 \/ code = 6 \/
  exists a,
    parsed cmdline = Some a /\
    ((list_countries a = true /\ code = print_countries (timeout a)) \/
     (list_proxies a = true /\
      code = print_proxies (country a) (proxy_type a) (limit a) (timeout a))).
Proof.
  intros H. follow cmdline; try discriminate; injection H as <-; auto 10.
  - do 5 right. exists a. auto.
  - do 5 right. exists a. auto.
Qed.

(** X12: once the log writer exists, a [run] that returns has closed it: the
    last event is the close.  After a discovery or selection failure (status 4
    or 5) it is closed twice, by the explicit call and by the deferred one;
    otherwise once.  While the server keeps serving it is not closed. *)
Theorem log_writer_closed_on_return (cmdline : list (string * flag_value)) :
  In NewLogWriter (trace cmdline) ->
  match snd (run cmdline) with
  | Returns code =>
      (exists t, trace cmdline = t ++ [LogWriterClose]) /\
      occurrences closes_log_writer (trace cmdline) =
        (if (code =? 4) || (code =? 5) then 2%nat else 1%nat)
  | _ => occurrences closes_log_writer (trace cmdline) = 0%nat
  end.
Proof.
  intros H. follow cmdline; members; cbn [snd].
  - split; [|reflexivity]. eexists (_ :: _ :: _ :: _ :: [_]). reflexivity.
  - split; [|reflexivity].
    eexists (_ :: _ :: _ :: _ :: _ :: _ :: _ :: [_]). reflexivity.
  - split; [|reflexivity].
    eexists (_ :: _ :: _ :: _ :: _ :: _ :: _ :: _ :: [_]). reflexivity.
  - split; [|reflexivity].
    eexists (_ :: _ :: _ :: _ :: _ :: _ :: _ :: _ :: _ :: _ :: _ :: _ :: _
             :: _ :: _ :: [_]).
    reflexivity.
  - reflexivity.
Qed.

Lemma logs_while_open_sound (t : list event) :
  forall opened closed,
    logs_while_open opened closed t = true ->
    forall pre l lvl f args post,
      t = pre ++ Log l lvl f args :: post ->
      (opened = true \/ In NewLogWriter pre) /\
      closed = false /\ ~ In LogWriterClose pre.
Proof.
  induction t as [|e t IH]; intros opened closed Hc pre l lvl f args post E.
  - destruct pre; discriminate.
  - destruct pre as [|e' pre]; cbn [app] in E; injection E as -> E.
    + cbn in Hc. apply andb_prop in Hc as [Hc _].
      apply andb_prop in Hc as [Ho Hn].
      destruct closed; [discriminate|]. simpl. tauto.
    + destruct e'; cbn in Hc;
        try (apply andb_prop in Hc as [_ Hc]);
        destruct (IH _ _ Hc _ _ _ _ _ _ E) as (Ho & Hcl & Hn);
        try discriminate Hcl;
        (split; [|split];
         [simpl; destruct Ho; auto
         | assumption
         | intros [D|D]; [discriminate D | contradiction]]).
Qed.

(** X13: [run] only logs while the log writer is open: before every [Log] call
    the log writer has been created and has not been closed. *)
Theorem logs_only_while_open (cmdline : list (string * flag_value))
    (pre post : list event) (l : CondLogger) (lvl : log_level) (f : string)
    (args : list string) :
  trace cmdline = pre ++ Log l lvl f args :: post ->
  In NewLogWriter pre /\ ~ In LogWriterClose pre.
Proof.
  intros E.
  assert (Hc : logs_while_open false false (trace cmdline) = true)
    by (follow cmdline; reflexivity).
  destruct (logs_while_open_sound _ _ _ Hc _ _ _ _ _ _ E) as ([D|Hn] & _ & Hcl);
    [discriminate | auto].
Qed.

(** X14: no step is tried twice: in every run each of [print_countries],
    [print_proxies], [NewResolver], [CredService], [get_endpoint],
    [NewProxyDialer], [NewProxyHandler] and [http.ListenAndServe] is called at
    most once. *)
Theorem every_step_at_most_once (cmdline : list (string * flag_value)) :
  (occurrences calls_print_countries (trace cmdline) <= 1)%nat /\
  (occurrences calls_print_proxies (trace cmdline) <= 1)%nat /\
  (occurrences calls_NewResolver (trace cmdline) <= 1)%nat /\
  (occurrences calls_CredService (trace cmdline) <= 1)%nat /\
  (occurrences calls_get_endpoint (trace cmdline) <= 1)%nat /\
  (occurrences constructs_dialer (trace cmdline) <= 1)%nat /\
  (occurrences constructs_handler (trace cmdline) <= 1)%nat /\
  (occurrences starts_server (trace cmdline) <= 1)%nat.
Proof.
  follow cmdline; repeat split; cbn; auto.
Qed.

(** X15: in proxy mode [run] logs at Critical level exactly when it returns,
    and then once: also when it returns 0 after the server stopped. *)
Theorem critical_logged_when_returning (cmdline : list (string * flag_value)) :
  In NewLogWriter (trace cmdline) ->
  occurrences logs_critical (trace cmdline) =
    match snd (run cmdline) with
    | Returns _ => 1%nat
    | _ => 0%nat
    end.
Proof.
  intros H. follow cmdline; members; reflexivity.
Qed.

(** Changing the limit does not change the path unless the proxy list is
    asked for. *)
Lemma run_path_limit (cmdline1 cmdline2 : list (string * flag_value))
    (a : CLIArgs) (n : N) (m : M Z) :
  parsed cmdline1 = Some a ->
  parsed cmdline2 = Some (set_limit n a) ->
  list_proxies a = false ->
  run_path cmdline1 m -> run_path cmdline2 m.
Proof.
  intros H1 H2 Hl P.
  inversion P; subst; same_flags.
  - exact (Path_arg_fail cmdline2 (set_limit n a) msg H2 ltac:(assumption)).
  - exact (Path_version cmdline2 (set_limit n a) H2
             ltac:(assumption) ltac:(assumption)).
  - exact (Path_list_countries cmdline2 (set_limit n a) H2
             ltac:(assumption) ltac:(assumption) ltac:(assumption)).
  - refine (Path_resolver_failed cmdline2 (set_limit n a) r msg H2 _ _);
      [repeat split|]; assumption.
  - refine (Path_discovery_failed cmdline2 (set_limit n a) r auth tunnels msg
              H2 _ _ _); [repeat split| |]; assumption.
  - refine (Path_selection_failed cmdline2 (set_limit n a) r auth tunnels ep msg
              H2 _ _ _ _); [repeat split| | |]; assumption.
  - refine (Path_server_returned cmdline2 (set_limit n a) r auth tunnels ep err
              H2 _ _ _ _ _); [repeat split| | | |]; assumption.
  - refine (Path_serving cmdline2 (set_limit n a) r auth tunnels ep
              H2 _ _ _ _ _); [repeat split| | | |]; assumption.
Qed.

(** X16: the flag [limit] matters to [-list-proxies] only: two command lines
    whose flags differ in the limit alone, and do not ask for the proxy list,
    make [run] do the same and return the same. *)
Theorem limit_only_for_list_proxies
    (cmdline1 cmdline2 : list (string * flag_value)) (a1 a2 : CLIArgs) :
  parsed cmdline1 = Some a1 ->
  parsed cmdline2 = Some a2 ->
  a2 = set_limit (limit a2) a1 ->
  list_proxies a1 = false ->
  run cmdline1 = run cmdline2.
Proof.
  intros H1 H2 E Hl. rewrite E in H2.
  apply (run_path_unique cmdline2).
  - exact (run_path_limit cmdline1 cmdline2 a1 (limit a2) _ H1 H2 Hl
             (run_follows_path cmdline1)).
  - apply run_follows_path.
Qed.

(** X17: how the process ends.  [main] never returns: it ends in [os.Exit].
    The [flag] package ends the process exactly when it rejects the command
    line, and the process keeps serving exactly when [http.ListenAndServe] was
    called and does not return; in every other case the process exits with the
    status [run] returned or with the 2 of [arg_fail]. *)
Theorem process_outcome (cmdline : list (string * flag_value)) :
  snd (main cmdline) <> Returns tt /\
  (snd (main cmdline) = FlagExit <-> parsed cmdline = None) /\
  (snd (main cmdline) = Serving <->
   exists addr h,
     In (Call_ListenAndServe addr h) (trace cmdline) /\
     ListenAndServe addr h = None) /\
  (forall code, snd (run cmdline) = Returns code ->
                snd (main cmdline) = OsExit code) /\
  (forall code, snd (run cmdline) = OsExit code ->
                code = 2 /\ snd (main cmdline) = OsExit 2).
Proof.
  assert (Hmain : snd (main cmdline) =
                  match snd (run cmdline) with
                  | Returns code => OsExit code
                  | OsExit code => OsExit code
                  | FlagExit => FlagExit
                  | Serving => Serving
                  end).
  { unfold main, bind. now destruct (snd (run cmdline)). }
  rewrite Hmain.
  follow cmdline; cbn [snd];
    (split; [discriminate|]);
    (split; [split; [try discriminate; try reflexivity; try congruence
                    | intros; try reflexivity; congruence]|]);
    (split; [split;
             [try discriminate
             | intros (addr & h & Hin & Hn); members;
               try (injection Hin as <- <-; congruence)]|]);
    try (split; [intros code [= <-]; reflexivity
                | intros code E; try discriminate E;
                  injection E as <-; split; reflexivity]).
  intros _. do 2 eexists. split; [|eassumption]. cbn; auto 20.
Qed.

(** X18: the HTTP server is only ever started on the value of the flag
    [bind-address], which is [127.0.0.1:8080] when the flag is absent. *)
Theorem server_listens_on_bind_address (cmdline : list (string * flag_value))
    (addr : string) (h : Handler) :
  In (Call_ListenAndServe addr h) (trace cmdline) ->
  exists a,
    parsed cmdline = Some a /\
    addr = bind_address a /\
    bind_address a =
      match flag_given "bind-address" cmdline with
      | Some (VString s) => s
      | _ => "127.0.0.1:8080"
      end.
Proof.
  intros H.
  assert (Hg : forall a, parsed cmdline = Some a ->
                 bind_address a =
                   match flag_given "bind-address" cmdline with
                   | Some (VString s) => s
                   | _ => "127.0.0.1:8080"
                   end).
  { intros a Ha.
    pose proof (field_value_assigned cmdline default_args a Ha "bind-address")
      as F.
    destruct (flag_given "bind-address" cmdline) as [v|]; cbn in F.
    - injection F as <-. reflexivity.
    - injection F as F. exact F. }
  follow cmdline; members;
    injection H as <- <-; exists a; auto.
Qed.

(** X19: everything [run] logs goes through the MAIN logger, built with the
    flags [LstdFlags|Lshortfile] and the verbosity of the flag [verbosity],
    which is 20 when the flag is absent. *)
Theorem run_logs_through_main_logger (cmdline : list (string * flag_value))
    (l : CondLogger) (lvl : log_level) (f : string) (args : list string) :
  In (Log l lvl f args) (trace cmdline) ->
  exists a,
    parsed cmdline = Some a /\
    l = mkCondLogger "MAIN    : " 19 (verbosity a) /\
    verbosity a =
      match flag_given "verbosity" cmdline with
      | Some (VInt z) => z
      | _ => 20
      end.
Proof.
  intros H.
  assert (Hg : forall a, parsed cmdline = Some a ->
                 verbosity a =
                   match flag_given "verbosity" cmdline with
                   | Some (VInt z) => z
                   | _ => 20
                   end).
  { intros a Ha.
    pose proof (field_value_assigned cmdline default_args a Ha "verbosity")
      as F.
    destruct (flag_given "verbosity" cmdline) as [v|]; cbn in F.
    - injection F as <-. reflexivity.
    - injection F as F. exact F. }
  follow cmdline; members;
    injection H as <- <- <- <-; exists a; auto.
Qed.

End More.

(** ** More worked runs *)

Section MoreRuns.

Import Selector World.

(** Membership in the trace of one of these runs. *)
Ltac found E :=
  rewrite (proj1 (main_of_run _)), E;
  unfold opening, discovery, wiring; cbn [fst app];
  repeat first [left; reflexivity | right].

(** [-country de -limit 5 -country fr]: the country is [fr]. *)
Lemma flags_hold_last_assignment_witness :
  let cmdline :=
    [("country", VString "de"); ("limit", VUint 5); ("country", VString "fr")] in
  let a := set_country "fr" (set_limit 5 (set_country "de" default_args)) in
  parsed cmdline = Some a /\
  field_value "country" a = Some (VString "fr").
Proof.
  intros cmdline a. split; [reflexivity|].
  exact (flags_hold_last_assignment cmdline a eq_refl "country").
Defined.

(** [-country de] leaves the proxy type at [direct]. *)
Lemma absent_flags_keep_defaults_witness :
  let cmdline := [("country", VString "de")] in
  let a := set_country "de" default_args in
  parsed cmdline = Some a /\ proxy_type a = "direct".
Proof.
  intros cmdline a. split; [reflexivity|].
  destruct (absent_flags_keep_defaults cmdline a eq_refl)
    as (_ & _ & _ & _ & _ & _ & _ & _ & _ & H & _).
  exact (H eq_refl).
Defined.

(** The same flags in another order, one of them repeated. *)
Lemma parsed_depends_on_last_assignments_witness :
  let cmdline1 := [("country", VString "de"); ("limit", VUint 5)] in
  let cmdline2 :=
    [("limit", VUint 7); ("limit", VUint 5); ("country", VString "de")] in
  let a1 := set_limit 5 (set_country "de" default_args) in
  let a2 := set_country "de" (set_limit 5 (set_limit 7 default_args)) in
  (parsed cmdline1 = Some a1 /\ parsed cmdline2 = Some a2 /\
   forall name, flag_given name cmdline1 = flag_given name cmdline2) /\
  a1 = a2.
Proof.
  intros cmdline1 cmdline2 a1 a2.
  assert (G : forall name, flag_given name cmdline1 = flag_given name cmdline2).
  { intros name. unfold cmdline1, cmdline2. cbn -[String.eqb].
    destruct (String.eqb_spec "country" name) as [<-|?]; [reflexivity|].
    destruct (String.eqb_spec "limit" name) as [<-|?]; reflexivity. }
  split; [split; [reflexivity | split; [reflexivity | exact G]]|].
  exact (parsed_depends_on_last_assignments cmdline1 cmdline2 a1 a2
           eq_refl eq_refl G).
Defined.

(** The empty command line is returned with the defaults. *)
Lemma parse_args_returns_valid_witness :
  parse_args (C := collaborators healthy) [] = ([], Returns default_args) /\
  country default_args <> "" /\ proxy_type default_args <> "".
Proof.
  assert (H : parse_args (C := collaborators healthy) []
              = ([], Returns default_args))
    by (rewrite parse_args_eq; reflexivity).
  split; [exact H|].
  destruct (parse_args_returns_valid (C := collaborators healthy) []
              [] default_args H) as (_ & _ & Hc & Hp & _).
  exact (conj Hc Hp).
Defined.

(** Country and proxy type both empty: the country is what is reported. *)
Lemma first_failed_check_reported_witness :
  let cmdline := [("country", VString ""); ("proxy-type", VString "")] in
  parsed cmdline
    = Some (set_proxy_type "" (set_country "" default_args)) /\
  run (C := collaborators healthy) cmdline
    = (usage_events "Country can't be empty string.", OsExit 2).
Proof.
  intros cmdline. split; [reflexivity|].
  exact (proj1 (first_failed_check_reported (C := collaborators healthy) cmdline
                  (set_proxy_type "" (set_country "" default_args)) eq_refl)
           eq_refl).
Defined.

(** [-list-countries] *)
Lemma list_countries_mode_witness :
  let cmdline := [("list-countries", VBool true)] in
  parsed cmdline = Some (set_list_countries true default_args) /\
  exit_status (C := collaborators healthy) cmdline = Some 0.
Proof.
  intros cmdline. split; [reflexivity|].
  refine (proj2 (proj2 (list_countries_mode (C := collaborators healthy) cmdline
                          (set_list_countries true default_args)
                          eq_refl _ _ eq_refl eq_refl eq_refl)));
    discriminate.
Defined.

(** [-list-proxies -limit 10] *)
Lemma list_proxies_mode_witness :
  let cmdline := [("list-proxies", VBool true); ("limit", VUint 10)] in
  parsed cmdline = Some (set_limit 10 (set_list_proxies true default_args)) /\
  trace (C := collaborators healthy) cmdline =
    [Call_print_proxies (C := collaborators healthy) "us" "direct" 10
       (10 * Second) 0].
Proof.
  intros cmdline. split; [reflexivity|].
  refine (proj1 (list_proxies_mode (C := collaborators healthy) cmdline
                   (set_limit 10 (set_list_proxies true default_args))
                   eq_refl _ _ eq_refl eq_refl eq_refl));
    discriminate.
Defined.

(** A resolver that cannot be built. *)
Lemma resolver_failure_stops_before_discovery_witness :
  let r := mkResolverConfig (resolver default_args) (timeout default_args) in
  In (Call_NewResolver (C := collaborators bad_resolver)
        (resolver default_args) (timeout default_args) r
        (Some "unsupported resolver URL"))
     (trace (C := collaborators bad_resolver) []) /\
  occurrences calls_CredService (trace (C := collaborators bad_resolver) [])
    = 0%nat.
Proof.
  intros r.
  assert (H : In (Call_NewResolver (C := collaborators bad_resolver)
                    (resolver default_args) (timeout default_args) r
                    (Some "unsupported resolver URL"))
                 (trace (C := collaborators bad_resolver) []))
    by found bad_resolver_run.
  split; [exact H|].
  exact (proj1 (proj2 (resolver_failure_stops_before_discovery
                         (C := collaborators bad_resolver) [] _ _ _ _ H))).
Defined.

(** The discovery call of a run rejected by the control plane. *)
Lemma CredService_arguments_witness :
  In (Call_CredService (C := collaborators forbidden) (rotate default_args)
        (timeout default_args) (country default_args) (proxy_type default_args)
        (credLogger default_args) 7%nat []
        (Some "bad http status: 403 Forbidden"))
     (trace (C := collaborators forbidden) []) /\
  country default_args <> "" /\ proxy_type default_args <> "".
Proof.
  assert (H : In (Call_CredService (C := collaborators forbidden)
                    (rotate default_args) (timeout default_args)
                    (country default_args) (proxy_type default_args)
                    (credLogger default_args) 7%nat []
                    (Some "bad http status: 403 Forbidden"))
                 (trace (C := collaborators forbidden) []))
    by found forbidden_run.
  split; [exact H|].
  destruct (CredService_arguments (C := collaborators forbidden) [] _ _ _ _ _
              _ _ _ H)
    as (a & r & pre & post & _ & _ & _ & _ & _ & _ & Hc & Hp & _).
  exact (conj Hc Hp).
Defined.

(** The endpoint selection of the default run. *)
Lemma get_endpoint_arguments_witness :
  In (Call_get_endpoint (C := collaborators healthy) discovered
        (proxy_type default_args) (use_trial default_args)
        (force_port_field default_args) (Some us_direct) None)
     (trace (C := collaborators healthy) []) /\
  exists a rot t c l auth,
    parsed [] = Some a /\
    proxy_type default_args = proxy_type a /\
    force_port_field default_args = force_port_field a /\
    (Some us_direct, None)
      = get_endpoint (Collaborators := collaborators healthy) discovered
          (proxy_type default_args) (use_trial default_args)
          (force_port_field default_args) /\
    In (Call_CredService (C := collaborators healthy) rot t c
          (proxy_type default_args) l auth discovered None)
       (trace (C := collaborators healthy) []).
Proof.
  assert (H : In (Call_get_endpoint (C := collaborators healthy) discovered
                    (proxy_type default_args) (use_trial default_args)
                    (force_port_field default_args) (Some us_direct) None)
                 (trace (C := collaborators healthy) []))
    by found healthy_run.
  split; [exact H|].
  exact (get_endpoint_arguments (C := collaborators healthy) [] _ _ _ _ _ _ H).
Defined.

(** The status of a run rejected by the control plane is in the range. *)
Lemma exit_status_range_witness :
  exit_status (C := collaborators forbidden) [] = Some 4 /\
  (4 = 0 \/ 4 = 2 \/ 4 = 4 \/ 4 = 5 \/ 4 = 6 \/
   exists a,
     parsed [] = Some a /\
     ((list_countries a = true /\
       4 = print_countries (Collaborators := collaborators forbidden) (timeout a)) \/
      (list_proxies a = true /\
       4 = print_proxies (Collaborators := collaborators forbidden)
             (country a) (proxy_type a) (limit a) (timeout a)))).
Proof.
  assert (H : exit_status (C := collaborators forbidden) [] = Some 4)
    by (rewrite (proj2 (main_of_run _)), forbidden_run; reflexivity).
  split; [exact H|].
  exact (exit_status_range (C := collaborators forbidden) [] 4 H).
Defined.

(** After the 403 the log writer is closed twice. *)
Lemma log_writer_closed_on_return_witness :
  In (NewLogWriter (C := collaborators forbidden))
     (trace (C := collaborators forbidden) []) /\
  occurrences closes_log_writer (trace (C := collaborators forbidden) [])
    = 2%nat.
Proof.
  assert (H : In (NewLogWriter (C := collaborators forbidden))
                 (trace (C := collaborators forbidden) []))
    by found forbidden_run.
  split; [exact H|].
  pose proof (log_writer_closed_on_return (C := collaborators forbidden) [] H)
    as R.
  rewrite forbidden_run in R. exact (proj2 R).
Defined.

(** The first message of a run whose resolver cannot be built. *)
Lemma logs_only_while_open_witness :
  let t := trace (C := collaborators bad_resolver) [] in
  t = firstn 1 t ++
      Log (mainLogger default_args) Info
        "hola-proxy client version %s is starting..." [version] ::
      skipn 2 t /\
  In NewLogWriter (firstn 1 t) /\ ~ In LogWriterClose (firstn 1 t).
Proof.
  intros t.
  assert (E : t = firstn 1 t ++
                  Log (mainLogger default_args) Info
                    "hola-proxy client version %s is starting..." [version] ::
                  skipn 2 t)
    by (unfold t; rewrite (proj1 (main_of_run _)), bad_resolver_run;
        reflexivity).
  split; [exact E|].
  exact (logs_only_while_open (C := collaborators bad_resolver) [] _ _ _ _ _ _ E).
Defined.

(** The bind address is taken: one Critical message, and status 0. *)
Lemma critical_logged_when_returning_witness :
  In (NewLogWriter (C := collaborators port_in_use))
     (trace (C := collaborators port_in_use) []) /\
  occurrences logs_critical (trace (C := collaborators port_in_use) [])
    = 1%nat.
Proof.
  assert (H : In (NewLogWriter (C := collaborators port_in_use))
                 (trace (C := collaborators port_in_use) []))
    by found port_in_use_run.
  split; [exact H|].
  pose proof (critical_logged_when_returning (C := collaborators port_in_use)
                [] H) as R.
  rewrite port_in_use_run in R. exact R.
Defined.

(** [-limit 10] changes nothing for the proxy. *)
Lemma limit_only_for_list_proxies_witness :
  let cmdline2 := [("limit", VUint 10)] in
  (parsed [] = Some default_args /\
   parsed cmdline2 = Some (set_limit 10 default_args) /\
   list_proxies default_args = false) /\
  run (C := collaborators forbidden) [] = run (C := collaborators forbidden) cmdline2.
Proof.
  intros cmdline2.
  split; [split; [reflexivity | split; reflexivity]|].
  exact (limit_only_for_list_proxies (C := collaborators forbidden) [] cmdline2
           default_args (set_limit 10 default_args) eq_refl eq_refl eq_refl
           eq_refl).
Defined.

(** The healthy world keeps serving. *)
Lemma process_outcome_witness :
  (exists addr h,
      In (Call_ListenAndServe addr h) (trace (C := collaborators healthy) []) /\
      ListenAndServe (Collaborators := collaborators healthy) addr h = None) /\
  snd (main (C := collaborators healthy) []) = Serving.
Proof.
  assert (H : exists addr h,
             In (Call_ListenAndServe addr h)
                (trace (C := collaborators healthy) []) /\
             ListenAndServe (Collaborators := collaborators healthy) addr h
               = None).
  { do 2 eexists. split; [found healthy_run | reflexivity]. }
  split; [exact H|].
  exact (proj2 (proj1 (proj2 (proj2 (process_outcome
                                       (C := collaborators healthy) []))))
           H).
Defined.

(** The default run of the healthy world listens on the default address. *)
Lemma server_listens_on_bind_address_witness :
  let h :=
    NewProxyHandler (Collaborators := collaborators healthy)
      (NewProxyDialer (Collaborators := collaborators healthy)
         (NetAddr (Collaborators := collaborators healthy) (Some us_direct))
         (TLSName (Collaborators := collaborators healthy) (Some us_direct))
         7%nat plain_dialer)
      (mkResolverConfig (resolver default_args) (timeout default_args))
      (proxyLogger default_args) in
  In (Call_ListenAndServe (C := collaborators healthy)
        (bind_address default_args) h)
     (trace (C := collaborators healthy) []) /\
  exists a,
    parsed [] = Some a /\
    bind_address default_args = bind_address a /\
    bind_address a = "127.0.0.1:8080".
Proof.
  intros h.
  assert (H : In (Call_ListenAndServe (C := collaborators healthy)
                    (bind_address default_args) h)
                 (trace (C := collaborators healthy) []))
    by (unfold h; found healthy_run).
  split; [exact H|].
  exact (server_listens_on_bind_address (C := collaborators healthy) [] _ _ H).
Defined.

(** The Critical message after the 403. *)
Lemma run_logs_through_main_logger_witness :
  In (Log (C := collaborators forbidden) (mainLogger default_args) Critical
        "Unable to instantiate credential service: %v"
        ["bad http status: 403 Forbidden"])
     (trace (C := collaborators forbidden) []) /\
  exists a,
    parsed [] = Some a /\
    mainLogger default_args = mkCondLogger "MAIN    : " 19 (verbosity a) /\
    verbosity a = 20.
Proof.
  assert (H : In (Log (C := collaborators forbidden) (mainLogger default_args)
                    Critical "Unable to instantiate credential service: %v"
                    ["bad http status: 403 Forbidden"])
                 (trace (C := collaborators forbidden) []))
    by found forbidden_run.
  split; [exact H|].
  exact (run_logs_through_main_logger (C := collaborators forbidden) [] _ _ _ _ H).
Defined.

End MoreRuns.
